(** * TaskManagerBackend: the task routes over the Task model

    A shallow embedding of [src/routes/taskRoutes.js] and
    [src/models/Task.js].  The five route handlers are functions from a
    store (the [tasks] collection plus the counter of the auto-increment
    plugin) to a new store and an HTTP response.  The library calls the
    handlers make (Express, express-validator 7, Mongoose with the
    mongoose-sequence plugin) are modelled next to the handlers, each
    with the behaviour the handler relies on.

    Scope of the model:
    - a JavaScript number is a [number]: an integer, an integer plus a
      binary fraction, or an infinity; [NaN] is the [None] of an
      [option number]; the numbers that come from outside ([parseInt],
      the counter) are rounded to doubles; a timestamp is an integer
      number of milliseconds;
    - the conversions between strings and numbers that the routes reach
      only through a request body ([String] of a number that is not a
      safe integer, [Number] and [Date.parse] of a string) are taken
      from the host, see [Host];
    - strings are byte strings (UTF-8);
    - a request body is the parsed JSON object [req.body];
    - a PUT body is an update document without MongoDB operator keys
      (see [plain_update]); the paths [_id] and [__v] that Mongoose adds
      to every document are left out of [Task]; a body is a map without
      an order of its keys, so when several values of a PUT body fail
      the model names the first failing path in schema order where
      Mongoose names the first in the order of the body;
    - the store answers every query (no connection failure). *)

From Stdlib Require Import ZArith Ascii String List Bool Lia Sorted.
From stdpp Require Import base option list strings gmap pretty.

Set Warnings "-register-all,-clear-no-such-hyp".
Local Open Scope Z_scope.

(** ** Numbers *)

(** The values of a JavaScript number other than [NaN].  A finite
    double is an integer or an integer plus a binary fraction strictly
    between 0 and 1; [Frac w f] is [w] plus the fraction whose binary
    digits after the point are those of [f] from its lowest bit up to
    its leading one ([Frac 1 1] is 1.5, [Frac (-1) 1] is -0.5,
    [Frac 0 3] is 0.75 and [Frac 0 2] is 0.25).  Every number has one
    representation, so equality is numeric equality; the two zeros are
    [Int 0]. *)
Inductive number : Type :=
  | Int (n : Z)
  | Frac (whole : Z) (fraction : positive)
  | Infinity (negative : bool).

Coercion Int : Z >-> number.

Global Instance number_eq_dec : EqDecision number.
Proof. solve_decision. Defined.

(** The integers every one of which is a double: up to 2^53 in
    absolute value. *)
Definition safe_integer (n : Z) : bool := Z.abs n <=? 2 ^ 53.

(** The double nearest to an integer, ties to the even significand;
    from 2^1024 - 2^970 on it is an infinity. *)
Definition double (n : Z) : number :=
  let a := Z.abs n in
  if safe_integer n then Int n
  else
    let k := Z.log2 a - 52 in
    let q := a / 2 ^ k in
    let r := a mod 2 ^ k in
    let half := 2 ^ (k - 1) in
    let q' := if (half <? r) || ((r =? half) && Z.odd q) then q + 1 else q in
    if 2 ^ 1024 <=? q' * 2 ^ k then Infinity (n <? 0)
    else Int (Z.sgn n * (q' * 2 ^ k)).

Arguments double : simpl never.

(** [ToIntegerOrInfinity] of a finite number: the fraction is dropped,
    towards zero. *)
Definition truncate (whole : Z) : Z :=
  if whole <? 0 then whole + 1 else whole.

(** Three conversions of the JavaScript host are taken as they are:
    [NumberToString x] is [String(x)] for a number that is not a safe
    integer, [StringToNumber s] is [Number(s)] for a non-empty string
    ([None] is [NaN]) and [Date_parse s] is [Date.parse(s)] in
    milliseconds ([None] is [NaN]).  Of the first the model uses that
    such a number is never written as the empty string, a boolean word
    or a single digit. *)
Class Host : Type := {
  NumberToString : number → string;
  StringToNumber : string → option number;
  Date_parse : string → option Z;
  NumberToString_form : ∀ x : number,
    (∀ n : Z, x = Int n → safe_integer n = false) →
    NumberToString x ∉ [""; "true"; "false"; "1"; "0"]
}.

(** [String(x)] for a number: a safe integer is written in decimal. *)
Definition Number_toString `{!Host} (x : number) : string :=
  match x with
  | Int n => if safe_integer n then pretty n else NumberToString x
  | _ => NumberToString x
  end.

(** ** JSON values *)

Inductive json : Type :=
  | JNull
  | JBool (b : bool)
  | JNum (x : number)
  | JStr (s : string)
  | JArr (items : list json)
  | JObj (fields : list (string * json)).

(** [Array.prototype.join] with the separator [","]. *)
Fixpoint join_comma (l : list string) : string :=
  match l with
  | [] => ""
  | [s] => s
  | s :: rest => s +:+ "," +:+ join_comma rest
  end.

(** JavaScript's [String(v)] on a parsed JSON value: an array is joined
    with commas, [null] elements giving the empty string, and a plain
    object is ["[object Object]"]. *)
Fixpoint js_String `{!Host} (v : json) : string :=
  match v with
  | JNull => "null"
  | JBool true => "true"
  | JBool false => "false"
  | JNum x => Number_toString x
  | JStr s => s
  | JArr items =>
      join_comma
        ((fix elems (l : list json) : list string :=
            match l with
            | [] => []
            | JNull :: rest => "" :: elems rest
            | x :: rest => js_String x :: elems rest
            end) items)
  | JObj _ => "[object Object]"
  end.

Definition is_array (v : json) : bool :=
  match v with JArr _ => true | _ => false end.

(** [v === s] for a string literal [s]: strict equality holds only for
    a string with the same characters. *)
Definition strict_eq_string (v : json) (s : string) : bool :=
  match v with
  | JStr s' => bool_decide (s' = s)
  | _ => false
  end.

(** ** [parseInt] *)

Definition ascii_code (c : ascii) : Z := Z.of_N (N_of_ascii c).

(** White space skipped by [parseInt]: TAB, LF, VT, FF, CR, SP and, as
    UTF-8 sequences, U+00A0, U+1680, U+2000..U+200A, U+2028, U+2029,
    U+202F, U+205F, U+3000 and U+FEFF. *)
Definition ws3 (a b c : Z) : bool :=
  ((a =? 225) && (b =? 154) && (c =? 128))
  || ((a =? 226) && (b =? 128) && ((128 <=? c) && (c <=? 138)))
  || ((a =? 226) && (b =? 128) && ((c =? 168) || (c =? 169) || (c =? 175)))
  || ((a =? 226) && (b =? 129) && (c =? 159))
  || ((a =? 227) && (b =? 128) && (c =? 128))
  || ((a =? 239) && (b =? 187) && (c =? 191)).

Fixpoint skip_white_space (s : string) : string :=
  match s with
  | EmptyString => s
  | String a r1 =>
      let ca := ascii_code a in
      if ((9 <=? ca) && (ca <=? 13)) || (ca =? 32) then skip_white_space r1
      else
        match r1 with
        | EmptyString => s
        | String b r2 =>
            if (ca =? 194) && (ascii_code b =? 160) then skip_white_space r2
            else
              match r2 with
              | EmptyString => s
              | String c r3 =>
                  if ws3 ca (ascii_code b) (ascii_code c)
                  then skip_white_space r3
                  else s
              end
        end
  end.

(** The value of a character as a digit of the given radix (10 or 16). *)
Definition digit_value (radix : Z) (c : ascii) : option Z :=
  let n := ascii_code c in
  if (48 <=? n) && (n <=? 57) then Some (n - 48)
  else if (radix =? 16) && (97 <=? n) && (n <=? 102) then Some (n - 87)
  else if (radix =? 16) && (65 <=? n) && (n <=? 70) then Some (n - 55)
  else None.

(** Reads the longest prefix of digits; [acc] is [None] until a digit
    has been read. *)
Fixpoint parse_digits (radix : Z) (acc : option Z) (s : string) : option Z :=
  match s with
  | EmptyString => acc
  | String c rest =>
      match digit_value radix c with
      | Some d => parse_digits radix (Some (default 0 acc * radix + d)) rest
      | None => acc
      end
  end.

(** [parseInt(s)] without a radix argument; [None] is [NaN].  The
    digits are read as an integer, all of them (also past the 20th
    decimal digit, which an implementation may read as zeros), and the
    result is the double nearest to it. *)
Definition parseInt (s : string) : option number :=
  let s1 := skip_white_space s in
  let '(sign, s2) :=
    match s1 with
    | String "-" r => (-1, r)
    | String "+" r => (1, r)
    | _ => (1, s1)
    end in
  let '(radix, s3) :=
    match s2 with
    | String "0" (String "x" r) => (16, r)
    | String "0" (String "X" r) => (16, r)
    | _ => (10, s2)
    end in
  match parse_digits radix None s3 with
  | Some n => Some (double (sign * n))
  | None => None
  end.

(** ** express-validator *)

(** The string a standard validator is run on ([toString] of
    express-validator): [undefined] and [null] give the empty string,
    any other value its JavaScript string form. *)
Definition toString `{!Host} (value : option json) : string :=
  match value with
  | None | Some JNull => ""
  | Some v => js_String v
  end.

(** [validator.isEmpty] and [validator.isBoolean] with their default
    options. *)
Definition isEmpty (str : string) : bool := bool_decide (str = "").

Definition isBoolean (str : string) : bool :=
  bool_decide (str ∈ ["true"; "false"; "1"; "0"]).

(** One entry of [errors.array()]. *)
Record field_error : Type := {
  path : string;
  msg : string;
  value : option json
}.

(** A standard validator of a chain: an array is validated element by
    element, any other value as it is; each value the (possibly negated)
    validator rejects adds one error. *)
Definition standard_validation `{!Host} (validator : string → bool) (negated : bool)
    (field message : string) (v : option json) : list field_error :=
  let values :=
    match v with
    | Some (JArr items) => Some <$> items
    | _ => [v]
    end in
  mjoin ((λ x,
    let result := validator (toString x) in
    if (if negated then result else negb result)
    then [{| path := field; msg := message; value := x |}]
    else []) <$> values).

(** [body('title').notEmpty().withMessage(...)] *)
Definition title_chain `{!Host} (body : gmap string json) : list field_error :=
  standard_validation isEmpty true "title" "El título es obligatorio"
    (body !! "title").

(** [body('description').notEmpty().withMessage(...)] *)
Definition description_chain `{!Host} (body : gmap string json) : list field_error :=
  standard_validation isEmpty true "description"
    "La descripción es obligatoria" (body !! "description").

(** [body('status').optional().isBoolean().withMessage(...)]: the chain
    stops at [optional()] when the field is [undefined]. *)
Definition status_chain `{!Host} (body : gmap string json) : list field_error :=
  match body !! "status" with
  | None => []
  | Some v =>
      standard_validation isBoolean false "status"
        "El estado debe ser un valor booleano" (Some v)
  end.

(** [validationResult(req).array()] after the three chains. *)
Definition validationResult `{!Host} (body : gmap string json) : list field_error :=
  title_chain body ++ description_chain body ++ status_chain body.

(** ** The Task model ([src/models/Task.js]) *)

(** A stored task.  [status], [creationDate] and [id] are not
    [required] in [TaskSchema], so a stored document can hold [null]
    there; [None] is that [null]. *)
Record Task : Type := {
  title : string;
  status : option bool;
  description : string;
  creationDate : option Z;
  id : option number
}.

Global Instance Task_eq_dec : EqDecision Task.
Proof. solve_decision. Defined.

(** The database: the [tasks] collection in its natural order and the
    counter document kept by the [AutoIncrement] plugin.  The unique
    index on [id] is enforced by [save] and [findOneAndUpdate]. *)
Record store : Type := {
  tasks : list Task;
  counter : Z
}.

Definition initial_store : store := {| tasks := []; counter := 0 |}.

(** Errors a Mongoose call throws. *)
Inductive error : Type :=
  | CastError (at_path : string)
  | ValidationError (at_paths : list string)
  | DuplicateKeyError (at_path : string).

(** A cast gives [None] when it fails, [Some None] for [null] and
    [Some (Some x)] for a value. *)
Definition cast_result (A : Type) : Type := option (option A).

(** The last binding of a key in the fields of a JSON object. *)
Fixpoint field_lookup (k : string) (fields : list (string * json)) : option json :=
  match fields with
  | [] => None
  | (k', v) :: rest =>
      match field_lookup k rest with
      | Some w => Some w
      | None => if bool_decide (k' = k) then Some v else None
      end
  end.

(** The cast of a [String] path: strings, numbers and booleans through
    their [toString]; an object with a non-empty string [_id] gives
    that [_id]; arrays and other objects fail. *)
Definition castString `{!Host} (v : json) : cast_result string :=
  match v with
  | JNull => Some None
  | JStr s => Some (Some s)
  | JNum _ | JBool _ => Some (Some (js_String v))
  | JArr _ => None
  | JObj fields =>
      match field_lookup "_id" fields with
      | Some (JStr s) => if bool_decide (s = "") then None else Some (Some s)
      | _ => None
      end
  end.

(** The cast of a [Boolean] path: [convertToTrue] is
    [true, 'true', 1, '1', 'yes'], [convertToFalse] is
    [false, 'false', 0, '0', 'no']. *)
Definition castBoolean (v : json) : cast_result bool :=
  match v with
  | JNull => Some None
  | JBool b => Some (Some b)
  | JNum (Int 1) => Some (Some true)
  | JNum (Int 0) => Some (Some false)
  | JStr s =>
      if bool_decide (s ∈ ["true"; "1"; "yes"]) then Some (Some true)
      else if bool_decide (s ∈ ["false"; "0"; "no"]) then Some (Some false)
      else None
  | _ => None
  end.

(** The [required] validator of a [String] path: a non-empty string. *)
Definition checkRequired (v : option string) : bool :=
  match v with
  | Some s => negb (bool_decide (s = ""))
  | None => false
  end.

Definition has_id (n : number) (t : Task) : Prop := id t = Some n.

Global Instance has_id_dec n t : Decision (has_id n t).
Proof. unfold has_id. apply _. Defined.

(** [Task.find(filter)]: every task, or the tasks whose [status] is the
    boolean of the filter, in the natural order of the collection. *)
Definition Task_find (filter_status : option bool) (st : store) : list Task :=
  match filter_status with
  | Some b => filter (λ t, status t = Some b) (tasks st)
  | None => tasks st
  end.

(** The cast of a query condition [{ id: v }] on the [Number] path:
    [NaN] fails. *)
Definition cast_id_condition (v : option number) : error + number :=
  match v with
  | Some n => inr n
  | None => inl (CastError "id")
  end.

(** [Task.findOne({ id: v })]: the first task with that id. *)
Definition Task_findOne (v : option number) (st : store) : error + option Task :=
  match cast_id_condition v with
  | inl e => inl e
  | inr n => inr (snd <$> list_find (has_id n) (tasks st))
  end.

(** [Task.findOneAndDelete({ id: v })]: removes the first task with
    that id and returns it. *)
Definition Task_findOneAndDelete (v : option number) (st : store)
    : store * (error + option Task) :=
  match cast_id_condition v with
  | inl e => (st, inl e)
  | inr n =>
      match list_find (has_id n) (tasks st) with
      | Some (i, t) =>
          ({| tasks := delete i (tasks st); counter := counter st |},
           inr (Some t))
      | None => (st, inr None)
      end
  end.

(** The paths of a new document that fail validation, in schema order:
    a path whose value could not be cast, or a required path without a
    non-empty string. *)
Definition document_errors (t : cast_result string) (s : cast_result bool)
    (d : cast_result string) : list string :=
  (if match t with Some v => checkRequired v | None => false end
   then [] else ["title"])
  ++ match s with Some _ => [] | None => ["status"] end
  ++ (if match d with Some v => checkRequired v | None => false end
      then [] else ["description"]).

(** [new Task({ title, status, description })] followed by [save()].
    A field that is [undefined] is left to its default: [status] to
    [false], [creationDate] to [Date.now()].  Validation runs first;
    then the plugin's [pre('save')] hook increments the counter and
    writes it, a JavaScript number, to [id]; then the document is inserted, which the unique
    index on [id] refuses when a stored task already has that id.  The
    counter keeps its increment when the insert is refused. *)
Definition Task_save `{!Host} (now : Z) (title_v status_v description_v : option json)
    (st : store) : store * (error + Task) :=
  let t := from_option castString (Some None) title_v in
  let s := from_option castBoolean (Some (Some false)) status_v in
  let d := from_option castString (Some None) description_v in
  match t, s, d, document_errors t s d with
  | Some (Some t'), Some s', Some (Some d'), [] =>
      let seq := counter st + 1 in
      let doc := {| title := t'; status := s'; description := d';
                    creationDate := Some now; id := Some (double seq) |} in
      if bool_decide (Exists (has_id (double seq)) (tasks st))
      then ({| tasks := tasks st; counter := seq |},
            inl (DuplicateKeyError "id"))
      else ({| tasks := tasks st ++ [doc]; counter := seq |}, inr doc)
  | _, _, _, paths => (st, inl (ValidationError paths))
  end.

(** ** Updates *)

(** [castNumber] on a value that is not a document: a string goes
    through [Number], a boolean is 1 or 0, and no array or object is a
    number. *)
Definition castNumber_value `{!Host} (v : json) : cast_result number :=
  match v with
  | JNull => Some None
  | JNum x => Some (Some x)
  | JBool b => Some (Some (Int (if b then 1 else 0)))
  | JStr s =>
      if bool_decide (s = "") then Some None
      else match StringToNumber s with
           | Some x => Some (Some x)
           | None => None
           end
  | JArr _ | JObj _ => None
  end.

(** The cast of a [Number] path: of an object that has an [_id] the
    [_id] is cast in its place. *)
Definition castNumber `{!Host} (v : json) : cast_result number :=
  match v with
  | JObj fields =>
      match field_lookup "_id" fields with
      | Some w => castNumber_value w
      | None => None
      end
  | _ => castNumber_value v
  end.

(** A time value is a valid [Date] within 8.64e15 ms of the epoch. *)
Definition valid_time (n : Z) : cast_result Z :=
  if Z.abs n <=? 8640000000000000 then Some (Some n) else None.

(** [new Date(x)] for a number: the time value is [x] without its
    fraction when [x] is within the range of dates. *)
Definition number_time (x : number) : cast_result Z :=
  match x with
  | Int n => valid_time n
  | Frac w _ =>
      if (-8640000000000000 <=? w) && (w <? 8640000000000000)
      then Some (Some (truncate w)) else None
  | Infinity _ => None
  end.

(** [x >= z] and [x < z] for an integer [z]. *)
Definition at_least (x : number) (z : Z) : bool :=
  match x with
  | Int n => z <=? n
  | Frac w _ => z <=? w
  | Infinity negative => negb negative
  end.

Definition below (x : number) (z : Z) : bool := negb (at_least x z).

(** The cast of a [Date] path. *)
Definition castDate `{!Host} (v : json) : cast_result Z :=
  match v with
  | JNull => Some None
  | JBool _ => None
  | JNum x => number_time x
  | JStr s =>
      if bool_decide (s = "") then Some None
      else
        match StringToNumber s with
        | Some x =>
            if at_least x 275761 || below x (-271820) then number_time x
            else from_option valid_time None (Date_parse s)
        | None => from_option valid_time None (Date_parse s)
        end
  | JArr _ | JObj _ => from_option valid_time None (Date_parse (js_String v))
  end.

(** A cast update document: for each schema path, [None] when the body
    does not name it and the value to [$set] otherwise. *)
Record update : Type := {
  set_title : option (option string);
  set_status : option (option bool);
  set_description : option (option string);
  set_creationDate : option (option Z);
  set_id : option (option number)
}.

(** Casts one path of the body; the left component collects the path
    when its value cannot be cast. *)
Definition cast_field {A : Type} (cast : json → cast_result A)
    (body : gmap string json) (field : string)
    : list string * option (option A) :=
  match body !! field with
  | None => ([], None)
  | Some v =>
      match cast v with
      | Some x => ([], Some x)
      | None => ([field], None)
      end
  end.

(** The update validators ([runValidators: true]) run on the paths the
    update sets: the [required] validator of [title] and
    [description]. *)
Definition update_validators (u : update) : list string :=
  match set_title u with
  | Some v => if checkRequired v then [] else ["title"]
  | None => []
  end
  ++ match set_description u with
     | Some v => if checkRequired v then [] else ["description"]
     | None => []
     end.

(** [castUpdate] under the schema's strict mode: the body's keys that
    are schema paths are cast and moved under [$set], the others are
    dropped.  A value that cannot be cast throws its [CastError]; when
    several values fail Mongoose reports the first in the key order of
    the body, and the model, whose bodies are unordered, the first in
    schema order.  The update validators run on a body that was
    cast. *)
Definition castUpdate `{!Host} (body : gmap string json) : error + update :=
  let '(e1, t) := cast_field castString body "title" in
  let '(e2, s) := cast_field castBoolean body "status" in
  let '(e3, d) := cast_field castString body "description" in
  let '(e4, c) := cast_field castDate body "creationDate" in
  let '(e5, i) := cast_field castNumber body "id" in
  let u := {| set_title := t; set_status := s; set_description := d;
              set_creationDate := c; set_id := i |} in
  match e1 ++ e2 ++ e3 ++ e4 ++ e5 with
  | [] =>
      match update_validators u with
      | [] => inr u
      | paths => inl (ValidationError paths)
      end
  | field :: _ => inl (CastError field)
  end.

(** The document after [$set]. *)
Definition apply_update (u : update) (t : Task) : Task :=
  {| title := default (title t) (mjoin (set_title u));
     status := default (status t) (set_status u);
     description := default (description t) (mjoin (set_description u));
     creationDate := default (creationDate t) (set_creationDate u);
     id := default (id t) (set_id u) |}.

(** [Task.findOneAndUpdate({ id: v }, body, { new: true,
    runValidators: true })].  The condition and the update are cast and
    validated before the database is asked; the first task with that
    id is then updated in place, unless the update changes its [id] to
    one that another task has, which the unique index refuses; the
    updated document is returned. *)
Definition Task_findOneAndUpdate `{!Host} (v : option number) (body : gmap string json)
    (st : store) : store * (error + option Task) :=
  match cast_id_condition v with
  | inl e => (st, inl e)
  | inr n =>
      match castUpdate body with
      | inl e => (st, inl e)
      | inr u =>
          match list_find (has_id n) (tasks st) with
          | None => (st, inr None)
          | Some (i, t) =>
              let t' := apply_update u t in
              if bool_decide (id t' ≠ id t)
                 && bool_decide (Exists (λ o, id o = id t')
                                   (delete i (tasks st)))
              then (st, inl (DuplicateKeyError "id"))
              else ({| tasks := <[i := t']> (tasks st);
                       counter := counter st |}, inr (Some t'))
          end
      end
  end.

(** ** The routes ([src/routes/taskRoutes.js]) *)

(** The JSON body of a response. *)
Inductive payload : Type :=
  | TaskList (ts : list Task)
  | TaskJson (t : Task)
  | Message (message : string)
  | ErrorMessage (e : error)
  | ValidationErrors (errors : list field_error).

Record response : Type := {
  code : Z;
  json_body : payload
}.

(** [res.json(x)] and [res.status(c).json(x)]. *)
Definition res_json (x : payload) : response :=
  {| code := 200; json_body := x |}.

Definition res_status_json (c : Z) (x : payload) : response :=
  {| code := c; json_body := x |}.

(** The body is an object with a [message] field. *)
Definition has_message (r : response) : bool :=
  match json_body r with
  | Message _ | ErrorMessage _ => true
  | _ => false
  end.

(** [router.get('/')]; [query_status] is [req.query.status]. *)
Definition get_tasks (query_status : option json) (st : store) : response :=
  match query_status with
  | Some status_v =>
      res_json (TaskList (Task_find (Some (strict_eq_string status_v "true")) st))
  | None => res_json (TaskList (Task_find None st))
  end.

(** [router.get('/:id')]; [params_id] is [req.params.id]. *)
Definition get_task (params_id : string) (st : store) : response :=
  match Task_findOne (parseInt params_id) st with
  | inr None => res_status_json 404 (Message "Tarea no encontrada")
  | inr (Some task) => res_json (TaskJson task)
  | inl e => res_status_json 500 (ErrorMessage e)
  end.

(** [router.post('/')]; [now] is the clock read by [Date.now]. *)
Definition post_task `{!Host} (now : Z) (body : gmap string json) (st : store)
    : store * response :=
  match validationResult body with
  | [] =>
      match Task_save now (body !! "title") (body !! "status")
              (body !! "description") st with
      | (st', inr newTask) => (st', res_status_json 201 (TaskJson newTask))
      | (st', inl e) => (st', res_status_json 500 (ErrorMessage e))
      end
  | errors => (st, res_status_json 400 (ValidationErrors errors))
  end.

(** [router.put('/:id')] *)
Definition put_task `{!Host} (params_id : string) (body : gmap string json)
    (st : store) : store * response :=
  match Task_findOneAndUpdate (parseInt params_id) body st with
  | (st', inr None) => (st', res_status_json 404 (Message "Tarea no encontrada"))
  | (st', inr (Some task)) => (st', res_status_json 200 (TaskJson task))
  | (st', inl e) => (st', res_status_json 500 (ErrorMessage e))
  end.

(** [router.delete('/:id')] *)
Definition delete_task (params_id : string) (st : store) : store * response :=
  match Task_findOneAndDelete (parseInt params_id) st with
  | (st', inr None) => (st', res_status_json 404 (Message "Tarea no encontrada"))
  | (st', inr (Some _)) =>
      (st', res_status_json 200 (Message "Tarea eliminada correctamente"))
  | (st', inl e) => (st', res_status_json 500 (ErrorMessage e))
  end.

(** ** Sequences of requests *)

Inductive request : Type :=
  | GET_tasks (query_status : option json)
  | GET_task (params_id : string)
  | POST_task (now : Z) (body : gmap string json)
  | PUT_task (params_id : string) (body : gmap string json)
  | DELETE_task (params_id : string).

Definition handle `{!Host} (r : request) (st : store) : store * response :=
  match r with
  | GET_tasks q => (st, get_tasks q st)
  | GET_task p => (st, get_task p st)
  | POST_task now body => post_task now body st
  | PUT_task p body => put_task p body st
  | DELETE_task p => delete_task p st
  end.

(** Serves the requests one after the other; the responses come in the
    order of the requests. *)
Fixpoint run `{!Host} (st : store) (reqs : list request) : store * list response :=
  match reqs with
  | [] => (st, [])
  | r :: rest =>
      let '(st1, resp) := handle r st in
      let '(st2, resps) := run st1 rest in
      (st2, resp :: resps)
  end.

(** The ids handed out by the creates of a run: the [id] of the task in
    each [201] response. *)
Definition created_id (r : response) : option number :=
  match code r, json_body r with
  | 201, TaskJson t => id t
  | _, _ => None
  end.

Definition created_ids (rs : list response) : list number :=
  omap created_id rs.

(** ** Predicates of the statements *)

(** A key of a PUT body within the model: no update operator
    ([$set], [$inc], ...), no dotted path, neither [_id] nor [__v]. *)
Definition plain_key (k : string) : bool :=
  negb (bool_decide (k ∈ ["_id"; "__v"]))
  && match k with
     | String c _ => negb (bool_decide (c = "$"%char))
     | EmptyString => true
     end
  && negb (bool_decide ("."%char ∈ String.list_ascii_of_string k)).

Definition plain_update (body : gmap string json) : Prop :=
  map_Forall (λ k _, plain_key k = true) body.

(** No two stored tasks share an [id]. *)
Definition unique_ids (st : store) : Prop := NoDup (id <$> tasks st).


(** The field is absent, [null] or the empty string. *)
Definition missing_or_empty (v : option json) : Prop :=
  v = None ∨ v = Some JNull ∨ v = Some (JStr "").

(** The values [isBoolean] accepts once they are turned into strings. *)
Definition boolean_form (j : json) : Prop :=
  j ∈ [JBool true; JBool false; JNum 1; JNum 0;
       JStr "true"; JStr "false"; JStr "1"; JStr "0"].

(** The status is present, is not an array and has no boolean form. *)
Definition status_rejected (v : option json) : Prop :=
  ∃ j, v = Some j ∧ is_array j = false ∧ ¬ boolean_form j.

Definition not_array (v : option json) : Prop :=
  ∀ items, v ≠ Some (JArr items).

(** Every stored id is a value the counter has already taken. *)
Definition ids_from_counter (st : store) : Prop :=
  ∀ o, o ∈ tasks st → ∃ n : Z, id o = Some (double n) ∧ n ≤ counter st.

(** The request is not a PUT whose body names [id]. *)
Definition leaves_id (r : request) : Prop :=
  match r with
  | PUT_task _ body => plain_update body ∧ body !! "id" = None
  | _ => True
  end.

Definition digit_chars : list ascii :=
  ["0"; "1"; "2"; "3"; "4"; "5"; "6"; "7"; "8"; "9"]%char.

(** A string of decimal digits. *)
Fixpoint all_digits (s : string) : Prop :=
  match s with
  | EmptyString => True
  | String c r => c ∈ digit_chars ∧ all_digits r
  end.

(** ** Concrete requests *)

(** A host to run concrete requests on.  Its [Number] reads a signed
    decimal integer literal, an unsigned hexadecimal literal and the
    signed word [Infinity]; its [String] writes an infinity, an integer
    in decimal and a fraction in decimal without an exponent, which is
    JavaScript's form of a number from 1e-6 up that has at most 15
    significant digits; it reads no string as a date.  The requests
    below reach no other conversion. *)
Fixpoint decimal_literal (s : string) : bool :=
  match s with
  | EmptyString => true
  | String c r => bool_decide (c ∈ digit_chars) && decimal_literal r
  end.

Fixpoint hex_literal (s : string) : bool :=
  match s with
  | EmptyString => true
  | String c r => bool_decide (is_Some (digit_value 16 c)) && hex_literal r
  end.

Definition decimal_StringToNumber (s : string) : option number :=
  match s with
  | "Infinity" | "+Infinity" => Some (Infinity false)
  | "-Infinity" => Some (Infinity true)
  | String "0" (String "x" r) | String "0" (String "X" r) =>
      if hex_literal r then double <$> parse_digits 16 None r else None
  | String "-" r =>
      if decimal_literal r
      then (λ n, double (- n)) <$> parse_digits 10 None r else None
  | String "+" r =>
      if decimal_literal r then double <$> parse_digits 10 None r else None
  | _ => if decimal_literal s then double <$> parse_digits 10 None s else None
  end.

(** The fraction [0.f] as a numerator over a power of two. *)
Fixpoint fraction_value (f : positive) : Z * Z :=
  match f with
  | xH => (1, 2)
  | xO p => let '(n, d) := fraction_value p in (n, 2 * d)
  | xI p => let '(n, d) := fraction_value p in (n + d, 2 * d)
  end.

(** The decimal digits of [n / d] after the point. *)
Fixpoint fraction_digits (fuel : nat) (n d : Z) : string :=
  match fuel with
  | O => ""
  | S k =>
      if n =? 0 then ""
      else String (pretty_N_char (Z.to_N (10 * n / d)))
             (fraction_digits k ((10 * n) mod d) d)
  end.

Definition decimal_NumberToString (x : number) : string :=
  match x with
  | Int n => pretty n
  | Frac w f =>
      let '(n, d) := fraction_value f in
      let digits := Pos.size_nat f in
      if w <? 0
      then "-" +:+ pretty (- w - 1) +:+ String "." (fraction_digits digits (d - n) d)
      else pretty w +:+ String "." (fraction_digits digits n d)
  | Infinity negative => if negative then "-Infinity" else "Infinity"
  end.

Definition no_Date_parse (s : string) : option Z := None.

Definition body_milk : gmap string json :=
  {[ "title" := JStr "Buy milk"; "description" := JStr "2%" ]}.

Definition task_milk : Task :=
  {| title := "Buy milk"; status := Some false; description := "2%";
     creationDate := Some 1000; id := Some (Int 1) |}.

(** The store after [POST /tasks] with [body_milk] at time 1000. *)
Definition store_milk : store := {| tasks := [task_milk]; counter := 1 |}.

Definition body_status_string : gmap string json :=
  {[ "title" := JStr "a"; "description" := JStr "b"; "status" := JStr "true" ]}.

Definition body_status_abc : gmap string json :=
  {[ "title" := JStr "a"; "description" := JStr "b"; "status" := JStr "abc" ]}.

Definition body_no_title : gmap string json :=
  {[ "description" := JStr "b"; "status" := JStr "abc" ]}.

Definition body_empty_title : gmap string json := {[ "title" := JStr "" ]}.

Definition body_milk_extra : gmap string json :=
  <[ "id" := JNum 99 ]> (<[ "creationDate" := JNum 0 ]> body_milk).

(** The requests that hand the id 2 out twice. *)
Definition body_id_2 : gmap string json := {[ "id" := JNum 2 ]}.

Definition requests_reuse : list request :=
  [POST_task 1000 body_milk; PUT_task "1" body_id_2; DELETE_task "2";
   POST_task 2000 body_milk].

Definition task_milk_2 : Task :=
  {| title := "Buy milk"; status := Some false; description := "2%";
     creationDate := Some 1000; id := Some (Int 2) |}.

Definition task_milk_again : Task :=
  {| title := "Buy milk"; status := Some false; description := "2%";
     creationDate := Some 2000; id := Some (Int 2) |}.

(** ** Further predicates and requests *)

(** Every stored task has the two fields [TaskSchema] requires: a
    non-empty [title] and a non-empty [description]. *)
Definition required_fields (st : store) : Prop :=
  ∀ t, t ∈ tasks st → title t ≠ "" ∧ description t ≠ "".

(** A request of the model: a PUT carries a plain update document. *)
Definition plain_request (r : request) : Prop :=
  match r with
  | PUT_task _ body => plain_update body
  | _ => True
  end.

(** The paths of [TaskSchema]. *)
Definition schema_paths : list string :=
  ["title"; "status"; "description"; "creationDate"; "id"].

(** The tasks a response lists. *)
Definition listed (r : response) : list Task :=
  match json_body r with
  | TaskList ts => ts
  | _ => []
  end.

Definition body_done : gmap string json := {[ "status" := JBool true ]}.

Definition body_unknown_key : gmap string json := {[ "priority" := JNum 3 ]}.

(** A create followed by the PUT that completes the task. *)
Definition requests_milk : list request :=
  [POST_task 1000 body_milk; PUT_task "1" body_done].

Definition task_milk_done : Task :=
  {| title := "Buy milk"; status := Some true; description := "2%";
     creationDate := Some 1000; id := Some (Int 1) |}.

(** Three creates, with an update and a delete in between; the tasks
    with the ids 1 and 3 are left. *)
Definition requests_three : list request :=
  [POST_task 1000 body_milk; POST_task 2000 body_milk; PUT_task "1" body_done;
   DELETE_task "2"; POST_task 3000 body_milk].

Definition task_milk_3 : Task :=
  {| title := "Buy milk"; status := Some false; description := "2%";
     creationDate := Some 3000; id := Some (Int 3) |}.

Definition body_id_7 : gmap string json := {[ "id" := JNum 7 ]}.

Definition task_milk_7 : Task :=
  {| title := "Buy milk"; status := Some false; description := "2%";
     creationDate := Some 1000; id := Some (Int 7) |}.

(** A task at the id 2^53 and a task at the id 1.5. *)
Definition task_big : Task :=
  {| title := "Buy milk"; status := Some false; description := "2%";
     creationDate := Some 1000; id := Some (Int 9007199254740992) |}.

Definition task_half : Task :=
  {| title := "Buy milk"; status := Some false; description := "2%";
     creationDate := Some 1000; id := Some (Frac 1 1) |}.

(** A task whose [id] a PUT has set to [null]. *)
Definition task_no_id : Task :=
  {| title := "Buy milk"; status := Some false; description := "2%";
     creationDate := Some 1000; id := None |}.

Definition store_no_id : store := {| tasks := [task_no_id]; counter := 1 |}.

(** * Properties *)

Section properties.
Context {host : Host}.

(** ** Numbers *)

Lemma double_safe (n : Z) : safe_integer n = true → double n = Int n.
Proof. unfold double. by intros ->. Qed.

(** Rounding keeps the sign. *)
Lemma double_positive (n m : Z) : double n = Int m → 0 < m → 0 < n.
Proof.
  unfold double. destruct (safe_integer n); [intros [= ->]; done|].
  cbv zeta. case_match; [done|]. intros [= <-] Hm.
  destruct (Z.sgn_spec n) as [[Hn _]|[[_ H0]|[_ Hs]]]; [done|..].
  - rewrite H0 in Hm. lia.
  - rewrite Hs in Hm.
    assert (0 ≤ 2 ^ (Z.log2 (Z.abs n) - 52)) by (apply Z.pow_nonneg; lia).
    assert (0 ≤ Z.abs n / 2 ^ (Z.log2 (Z.abs n) - 52))
      by (apply Z_div_nonneg_nonneg; lia).
    case_match; nia.
Qed.

(** ** Decimal strings and [parseInt] *)

Example parseInt_5abc : parseInt "5abc" = Some (Int 5).
Proof. reflexivity. Qed.

Example parseInt_abc : parseInt "abc" = None.
Proof. reflexivity. Qed.

Example parseInt_hex : parseInt " -0x1F" = Some (Int (-31)).
Proof. reflexivity. Qed.

Example js_String_arr :
  js_String (JArr [JNum 12; JNull; JStr "a"; JArr [JBool true]]) = "12,,a,true".
Proof. reflexivity. Qed.

Lemma pretty_N_char_digit (d : N) : pretty_N_char d ∈ digit_chars.
Proof.
  unfold pretty_N_char, digit_chars.
  repeat case_match; apply (bool_decide_unpack _); by vm_compute.
Qed.

Lemma digit_value_pretty_N_char (d : N) :
  (d < 10)%N → digit_value 10 (pretty_N_char d) = Some (Z.of_N d).
Proof.
  intros Hd.
  assert (d = 0 ∨ d = 1 ∨ d = 2 ∨ d = 3 ∨ d = 4 ∨ d = 5 ∨ d = 6 ∨ d = 7
          ∨ d = 8 ∨ d = 9)%N as Hcases by lia.
  repeat (destruct Hcases as [->|Hcases]; [reflexivity|]). by subst.
Qed.

Lemma append_String (c : ascii) (s r : string) :
  String c s +:+ r = String c (s +:+ r).
Proof. reflexivity. Qed.

Lemma append_snoc (ds : string) (c : ascii) (r : string) :
  (ds +:+ String c "") +:+ r = ds +:+ String c r.
Proof.
  induction ds as [|c' ds IH]; [done|]. by rewrite !append_String, IH.
Qed.

Lemma all_digits_snoc (ds : string) (c : ascii) :
  all_digits ds → c ∈ digit_chars → all_digits (ds +:+ String c "").
Proof.
  intros Hds Hc. induction ds as [|c' ds IH]; [done|].
  rewrite append_String. destruct Hds. split; [done|]. by apply IH.
Qed.

(** [pretty_N_go x s] writes the digits of [x] in front of [s], and
    [parse_digits] reads them back. *)
Lemma pretty_N_go_spec (x : N) :
  ∀ s, ∃ ds,
    pretty_N_go x s = ds +:+ s
    ∧ all_digits ds
    ∧ ((0 < x)%N → ds ≠ "")
    ∧ ∀ rest,
        parse_digits 10 None (ds +:+ rest)
        = parse_digits 10
            (if decide (x = 0)%N then None else Some (Z.of_N x)) rest.
Proof.
  induction (N.lt_wf_0 x) as [x _ IH]; intros s.
  destruct (decide (x = 0)%N) as [->|Hx].
  { exists "". rewrite pretty_N_go_0. split_and!; try done. }
  rewrite pretty_N_go_step by lia.
  destruct (IH (x `div` 10)%N) with (s := String (pretty_N_char (x `mod` 10)) s)
    as (ds & Hgo & Hds & Hne & Hparse).
  { apply N.div_lt; lia. }
  exists (ds +:+ String (pretty_N_char (x `mod` 10)) "").
  split_and!.
  - by rewrite Hgo, append_snoc.
  - apply all_digits_snoc; [done|apply pretty_N_char_digit].
  - intros _. by destruct ds.
  - intros rest. rewrite append_snoc, Hparse. simpl.
    assert (x `mod` 10 < 10)%N as Hmod by (apply N.mod_lt; lia).
    rewrite (digit_value_pretty_N_char _ Hmod).
    f_equal. f_equal. pose proof (N.div_mod x 10 ltac:(lia)) as Hdm.
    destruct (decide (x `div` 10 = 0)%N) as [Hz|Hnz]; simpl; lia.
Qed.

(** Splits a goal about a digit [c], given [H : c ∈ digit_chars], into
    the ten digits and runs [tac] on each. *)
Ltac each_digit H tac :=
  unfold digit_chars in H;
  repeat (apply elem_of_cons in H as [->|H]; [tac|]);
  by apply elem_of_nil in H.

Lemma skip_white_space_digit (c : ascii) (r : string) :
  c ∈ digit_chars ∨ c = "-"%char → skip_white_space (String c r) = String c r.
Proof.
  intros [Hc| ->].
  - each_digit Hc ltac:(by destruct r as [|b [|c' r3]]; vm_compute).
  - by destruct r as [|b [|c' r3]]; vm_compute.
Qed.

Lemma signed_option (sign : Z) (o : option Z) :
  match o with Some n => Some (double (sign * n)) | None => None end
  = (λ n, double (sign * n)) <$> o.
Proof. by destruct o. Qed.

(** After the sign, [parseInt] reads a string of digits in base 10: a
    leading ["0"] is followed by a digit or by nothing, never by
    ["x"]. *)
Lemma parseInt_signed_digits (sign : Z) (ds : string) :
  all_digits ds →
  (let '(radix, s3) :=
     match ds with
     | String "0" (String "x" r) => (16, r)
     | String "0" (String "X" r) => (16, r)
     | _ => (10, ds)
     end in
   match parse_digits radix None s3 with
   | Some n => Some (double (sign * n))
   | None => None
   end)
  = (λ n, double (sign * n)) <$> parse_digits 10 None ds.
Proof.
  destruct ds as [|c1 r]; [done|]. intros [Hc1 Hr].
  unfold digit_chars in Hc1.
  apply elem_of_cons in Hc1 as [->|Hc1].
  { destruct r as [|c2 r2]; [cbn; apply signed_option|].
    destruct Hr as [Hc2 Hr2].
    each_digit Hc2 ltac:(cbn; apply signed_option). }
  each_digit Hc1 ltac:(cbn; apply signed_option).
Qed.

Lemma parseInt_all_digits (ds : string) :
  all_digits ds → parseInt ds = (λ n, double (1 * n)) <$> parse_digits 10 None ds.
Proof.
  intros Hds. destruct ds as [|c1 r]; [done|].
  unfold parseInt. rewrite skip_white_space_digit by (left; apply Hds).
  rewrite <-(parseInt_signed_digits 1 (String c1 r) Hds).
  destruct Hds as [Hc1 _]. each_digit Hc1 ltac:(reflexivity).
Qed.

Lemma parseInt_minus_digits (ds : string) :
  all_digits ds →
  parseInt (String "-" ds) = (λ n, double (-1 * n)) <$> parse_digits 10 None ds.
Proof.
  intros Hds. unfold parseInt.
  rewrite skip_white_space_digit by (by right).
  by rewrite <-(parseInt_signed_digits (-1) ds Hds).
Qed.

Lemma append_empty_r (s : string) : s +:+ "" = s.
Proof. induction s as [|c s IH]; [done|]. by rewrite append_String, IH. Qed.

Lemma pretty_positive_spec (q : positive) :
  ∃ ds, pretty (Z.pos q) = ds ∧ all_digits ds ∧ ds ≠ ""
        ∧ parse_digits 10 None ds = Some (Z.pos q).
Proof.
  destruct (pretty_N_go_spec (N.pos q) "") as (ds & Hgo & Hds & Hne & Hparse).
  exists ds. rewrite append_empty_r in Hgo.
  split_and!; [done|done|by apply Hne|].
  specialize (Hparse ""). rewrite append_empty_r in Hparse.
  rewrite Hparse. done.
Qed.

(** The decimal form of an integer is never empty and starts with a
    digit or a minus sign. *)
Lemma pretty_Z_head (n : Z) :
  ∃ c r, pretty n = String c r ∧ (c = "-"%char ∨ c ∈ digit_chars).
Proof.
  destruct n as [|q|q].
  - exists "0"%char, "". split; [done|]. right.
    apply (bool_decide_unpack _). by vm_compute.
  - destruct (pretty_positive_spec q) as (ds & Hp & Hds & Hne & _).
    destruct ds as [|c r]; [done|]. exists c, r. split; [done|].
    right. by destruct Hds.
  - exists "-"%char, (pretty (Z.pos q)). split; [done|]. by left.
Qed.

(** [parseInt] gives the double of an integer: never a fraction. *)
Lemma parseInt_double (s : string) : ∃ o : option Z, parseInt s = double <$> o.
Proof.
  unfold parseInt.
  repeat case_match; simplify_eq;
    first [by eexists (Some _) | by exists None].
Qed.

Lemma double_not_Frac (n w : Z) (f : positive) : double n ≠ Frac w f.
Proof. unfold double. by repeat case_match. Qed.

Lemma parseInt_not_Frac (s : string) (w : Z) (f : positive) :
  parseInt s ≠ Some (Frac w f).
Proof.
  destruct (parseInt_double s) as [[n|] ->]; [|done].
  intros [= H]. by eapply double_not_Frac.
Qed.

(** [parseInt] reads the decimal form of an integer back, as a
    double. *)
Lemma parseInt_pretty (n : Z) : parseInt (pretty n) = Some (double n).
Proof.
  destruct n as [|q|q].
  - reflexivity.
  - destruct (pretty_positive_spec q) as (ds & -> & Hds & Hne & Hparse).
    by rewrite parseInt_all_digits, Hparse.
  - destruct (pretty_positive_spec q) as (ds & Hp & Hds & Hne & Hparse).
    change (pretty (Z.neg q)) with (String "-" (pretty (Z.pos q))).
    by rewrite Hp, parseInt_minus_digits, Hparse.
Qed.

Lemma pretty_Z_not_empty (n : Z) : pretty n ≠ "".
Proof. destruct (pretty_Z_head n) as (c & r & -> & _). done. Qed.

Lemma pretty_Z_not_word (n : Z) (c : ascii) (r : string) :
  c ≠ "-"%char → c ∉ digit_chars → pretty n ≠ String c r.
Proof.
  intros Hc1 Hc2 Heq. destruct (pretty_Z_head n) as (c' & r' & Hp & [->| Hd]);
    rewrite Hp in Heq; simplify_eq/=; done.
Qed.

(** ** GET /tasks *)

Lemma strict_eq_string_true v s : strict_eq_string v s = true ↔ v = JStr s.
Proof.
  destruct v; simpl; try (split; [discriminate|intros; discriminate]).
  rewrite bool_decide_eq_true. split; congruence.
Qed.

Lemma strict_eq_string_false v s : v ≠ JStr s → strict_eq_string v s = false.
Proof.
  intros Hne. destruct (strict_eq_string v s) eqn:Heq; [|done].
  by apply strict_eq_string_true in Heq.
Qed.

(** C1. GET /tasks without a [status] parameter answers 200 with all
    tasks.  With [status=true] it answers with exactly the tasks whose
    stored status is [true]; with any other value of the parameter
    (["false"], ["foo"], an array, ...) with exactly the tasks whose
    stored status is [false]. *)
Theorem get_tasks_status_filter (st : store) :
  get_tasks None st = res_json (TaskList (tasks st))
  ∧ get_tasks (Some (JStr "true")) st
    = res_json (TaskList (filter (λ t, status t = Some true) (tasks st)))
  ∧ (∀ v, v ≠ JStr "true" →
       get_tasks (Some v) st
       = res_json (TaskList (filter (λ t, status t = Some false) (tasks st))))
  ∧ get_tasks (Some (JStr "false")) st = get_tasks (Some (JStr "foo")) st
  ∧ (∀ b t, t ∈ filter (λ t, status t = Some b) (tasks st)
            ↔ t ∈ tasks st ∧ status t = Some b).
Proof.
  split_and!; try done.
  - intros v Hv. unfold get_tasks, Task_find.
    by rewrite (strict_eq_string_false v "true" Hv).
  - intros b t. rewrite list_elem_of_filter. naive_solver.
Qed.

(** ** POST /tasks: validation *)

(** The string of a number is a boolean word or a single binary digit
    only for 1 and 0, and is never empty. *)
Lemma Number_toString_word (x : number) :
  Number_toString x ∈ [""; "true"; "false"; "1"; "0"] →
  (x = Int 1 ∧ Number_toString x = "1") ∨ (x = Int 0 ∧ Number_toString x = "0").
Proof.
  intros Hw.
  assert (Hhost : (∀ n : Z, x = Int n → safe_integer n = false) → False).
  { intros Hx. apply (NumberToString_form x Hx).
    destruct x as [n| |]; simpl in Hw; [|done..].
    by rewrite (Hx n eq_refl) in Hw. }
  destruct x as [n| |]; [|destruct Hhost; done..].
  simpl in Hw |- *. destruct (safe_integer n) eqn:Hsafe;
    [|destruct Hhost; intros ? [= <-]; done].
  rewrite !elem_of_cons, elem_of_nil in Hw.
  destruct Hw as [H|[H|[H|[H|[H|[]]]]]].
  - by destruct (pretty_Z_not_empty n).
  - by apply pretty_Z_not_word in H;
      [|done|apply (bool_decide_unpack _); by vm_compute].
  - by apply pretty_Z_not_word in H;
      [|done|apply (bool_decide_unpack _); by vm_compute].
  - change "1" with (pretty 1) in H. apply (inj pretty) in H. subst. auto.
  - change "0" with (pretty 0) in H. apply (inj pretty) in H. subst. auto.
Qed.

Lemma isEmpty_toString (v : option json) :
  not_array v → isEmpty (toString v) = true ↔ missing_or_empty v.
Proof.
  intros Harr. unfold isEmpty, missing_or_empty. rewrite bool_decide_eq_true.
  destruct v as [[|[]|n|s|items|fields]|]; simpl;
    try (split; [done|intros [|[|]]; done]);
    try (split; [intros _; by auto|done]).
  - split; [|intros [|[|]]; done]. intros H.
    destruct (Number_toString_word n) as [[_ H1]|[_ H1]];
      [rewrite H; set_solver|congruence..].
  - split; [intros ->; by auto|intros [|[|]]; by simplify_eq].
  - by destruct (Harr items).
Qed.

Lemma isBoolean_toString (j : json) :
  is_array j = false → isBoolean (toString (Some j)) = true ↔ boolean_form j.
Proof.
  intros Harr. unfold isBoolean, boolean_form. rewrite bool_decide_eq_true.
  rewrite !elem_of_cons, !elem_of_nil.
  destruct j as [|[]|n|s|items|fields]; simpl; try done;
    try (split; [naive_solver|naive_solver]).
  split.
  - intros H.
    destruct (Number_toString_word n) as [[-> _]|[-> _]]; [set_solver|auto 10..].
  - intros H. assert (n = Int 1 ∨ n = Int 0) as [->| ->] by naive_solver; auto.
Qed.

Lemma standard_validation_scalar validator negated field message v :
  not_array v →
  standard_validation validator negated field message v
  = if (if negated then validator (toString v)
        else negb (validator (toString v)))
    then [{| path := field; msg := message; value := v |}] else [].
Proof.
  intros Harr. unfold standard_validation.
  destruct v as [[| | | |items|]|]; simpl; try by rewrite app_nil_r.
  by destruct (Harr items).
Qed.

Lemma title_chain_paths body :
  not_array (body !! "title") →
  path <$> title_chain body
  = if isEmpty (toString (body !! "title")) then ["title"] else [].
Proof.
  intros Harr. unfold title_chain.
  rewrite standard_validation_scalar by done. by case_match.
Qed.

Lemma description_chain_paths body :
  not_array (body !! "description") →
  path <$> description_chain body
  = if isEmpty (toString (body !! "description")) then ["description"] else [].
Proof.
  intros Harr. unfold description_chain.
  rewrite standard_validation_scalar by done. by case_match.
Qed.

Lemma status_chain_paths body :
  not_array (body !! "status") →
  path <$> status_chain body
  = match body !! "status" with
    | Some j => if isBoolean (toString (Some j)) then [] else ["status"]
    | None => []
    end.
Proof.
  intros Harr. unfold status_chain.
  destruct (body !! "status") as [j|]; [|done].
  rewrite standard_validation_scalar by done.
  by destruct (isBoolean (toString (Some j))).
Qed.

Lemma status_rejected_iff (v : option json) :
  not_array v →
  status_rejected v
  ↔ match v with
    | Some j => isBoolean (toString (Some j)) = false
    | None => False
    end.
Proof.
  intros Harr. unfold status_rejected.
  destruct v as [j|]; [|by split; [intros (?&?&?)|]].
  assert (is_array j = false) as Hj.
  { destruct j; try done. by destruct (Harr items). }
  rewrite <-not_true_iff_false, (isBoolean_toString j Hj).
  split; [by intros (j' & [= <-] & _ & H)|by eauto].
Qed.

Lemma missing_or_empty_not_array v : missing_or_empty v → not_array v.
Proof. intros [->|[->| ->]] items; done. Qed.

Lemma status_rejected_not_array v : status_rejected v → not_array v.
Proof. intros (j & -> & Hj & _) items [= ->]. done. Qed.

(** A violated rule puts an error in the result of the validation. *)
Lemma validationResult_violated body :
  missing_or_empty (body !! "title")
  ∨ missing_or_empty (body !! "description")
  ∨ status_rejected (body !! "status") →
  validationResult body ≠ [].
Proof.
  intros Hbad Hnil. unfold validationResult in Hnil.
  apply app_eq_nil in Hnil as [Ht Hnil]. apply app_eq_nil in Hnil as [Hd Hs].
  destruct Hbad as [Hb|[Hb|Hb]].
  - pose proof (title_chain_paths body (missing_or_empty_not_array _ Hb)) as Hp.
    rewrite Ht in Hp.
    apply isEmpty_toString in Hb; [|by apply missing_or_empty_not_array].
    by rewrite Hb in Hp.
  - pose proof (description_chain_paths body (missing_or_empty_not_array _ Hb))
      as Hp.
    rewrite Hd in Hp.
    apply isEmpty_toString in Hb; [|by apply missing_or_empty_not_array].
    by rewrite Hb in Hp.
  - pose proof (status_chain_paths body (status_rejected_not_array _ Hb)) as Hp.
    rewrite Hs in Hp.
    apply status_rejected_iff in Hb; [|by apply status_rejected_not_array].
    destruct (body !! "status") as [j|]; [|done]. by rewrite Hb in Hp.
Qed.

(** C4 (amended). A POST whose [title] is missing, [null] or empty,
    whose [description] is missing, [null] or empty, or whose [status]
    is present, not an array and without a boolean form (a boolean, or
    one of "true", "false", "1", "0", 1, 0) is answered 400 with the
    non-empty array of validation errors, and the store is left as it
    was.  When none of the three fields is an array, the array has one
    entry for each violated rule and no other entry. *)
Theorem post_invalid_is_400_and_no_write (now : Z) (body : gmap string json)
    (st : store) :
  missing_or_empty (body !! "title")
  ∨ missing_or_empty (body !! "description")
  ∨ status_rejected (body !! "status") →
  ∃ errors,
    errors ≠ []
    ∧ post_task now body st
      = (st, res_status_json 400 (ValidationErrors errors))
    ∧ (not_array (body !! "title") → not_array (body !! "description") →
       not_array (body !! "status") →
       NoDup (path <$> errors)
       ∧ (∀ f, f ∈ path <$> errors → f ∈ ["title"; "description"; "status"])
       ∧ ("title" ∈ path <$> errors ↔ missing_or_empty (body !! "title"))
       ∧ ("description" ∈ path <$> errors
          ↔ missing_or_empty (body !! "description"))
       ∧ ("status" ∈ path <$> errors ↔ status_rejected (body !! "status"))).
Proof.
  intros Hbad. exists (validationResult body).
  pose proof (validationResult_violated body Hbad) as Hne.
  split_and!; [done| |].
  { unfold post_task. by destruct (validationResult body). }
  intros Ht Hd Hs. unfold validationResult. rewrite !fmap_app.
  rewrite title_chain_paths, description_chain_paths, status_chain_paths
    by done.
  rewrite <-(isEmpty_toString _ Ht), <-(isEmpty_toString _ Hd),
    (status_rejected_iff _ Hs).
  destruct (isEmpty (toString (body !! "title")));
    destruct (isEmpty (toString (body !! "description")));
    destruct (body !! "status") as [j|];
    try destruct (isBoolean (toString (Some j))); simpl;
    (split_and!;
      [apply (bool_decide_unpack _); by vm_compute
      |intros f; rewrite ?elem_of_cons, ?elem_of_nil; naive_solver
      |split; intros H;
         first [done
               |by apply (bool_decide_unpack _); vm_compute
               |by apply (bool_decide_pack _) in H; vm_compute in H]..]).
Qed.

(** ** POST /tasks: creation *)

Lemma Task_save_counter now tv sv dv st :
  counter st ≤ counter (Task_save now tv sv dv st).1.
Proof.
  unfold Task_save. repeat case_match; simpl; lia.
Qed.

Lemma Task_save_created now tv sv dv st st' t :
  Task_save now tv sv dv st = (st', inr t) →
  id t = Some (double (counter st + 1)) ∧ counter st' = counter st + 1
  ∧ tasks st' = tasks st ++ [t].
Proof.
  unfold Task_save. intros H.
  repeat case_match; simplify_eq/=; done.
Qed.

Lemma post_task_counter now body st :
  counter st ≤ counter (post_task now body st).1.
Proof.
  unfold post_task.
  pose proof (Task_save_counter now (body !! "title") (body !! "status")
                (body !! "description") st).
  repeat case_match; simplify_eq/=; lia.
Qed.

Lemma post_task_created now body st n :
  created_id (post_task now body st).2 = Some n →
  n = double (counter st + 1) ∧ counter (post_task now body st).1 = counter st + 1.
Proof.
  unfold post_task, created_id.
  destruct (validationResult body); [|done].
  destruct (Task_save _ _ _ _ _) as [st' [e|t]] eqn:Hsave; [done|]; simpl.
  apply Task_save_created in Hsave as (Hid & Hc & _).
  intros Hn. split; [congruence|done].
Qed.

Lemma list_find_absent (n : number) (l : list Task) :
  (∀ t, t ∈ l → id t ≠ Some n) → list_find (has_id n) l = None.
Proof.
  intros Hno. apply list_find_None, Forall_forall. exact Hno.
Qed.

Lemma get_task_absent p n st :
  parseInt p = Some n → (∀ t, t ∈ tasks st → id t ≠ Some n) →
  get_task p st = res_status_json 404 (Message "Tarea no encontrada").
Proof.
  intros Hp Hno. unfold get_task, Task_findOne. rewrite Hp. simpl.
  by rewrite (list_find_absent n (tasks st) Hno).
Qed.

Lemma get_task_last p n c st doc :
  parseInt p = Some n → id doc = Some n →
  (∀ o, o ∈ tasks st → id o ≠ Some n) →
  get_task p {| tasks := tasks st ++ [doc]; counter := c |}
  = res_json (TaskJson doc).
Proof.
  intros Hp Hid Hfree. unfold get_task, Task_findOne. rewrite Hp. simpl.
  assert (list_find (has_id n) (tasks st ++ [doc])
          = Some (length (tasks st), doc)) as ->; [|done].
  apply list_find_Some. split_and!.
  - rewrite lookup_app_r by lia. by rewrite Nat.sub_diag.
  - done.
  - intros j y Hj Hlt. rewrite lookup_app_l in Hj by done.
    apply Hfree. by eapply list_elem_of_lookup_2.
Qed.

(** C6 (amended). A POST whose [title] and [description] are non-empty
    strings and whose [status] is omitted or a boolean, made when no
    stored task holds the next value of the counter, is answered 201
    with the created task: the submitted title and description, the
    submitted status or [false], the next counter value as [id] and the
    clock as [creationDate].  The task is appended to the collection,
    and the GET on its id that follows returns the same task. *)
Theorem post_valid_creates (now : Z) (body : gmap string json) (st : store)
    (t d : string) (sb : option bool) :
  body !! "title" = Some (JStr t) → t ≠ "" →
  body !! "description" = Some (JStr d) → d ≠ "" →
  body !! "status" = JBool <$> sb →
  (∀ o, o ∈ tasks st → id o ≠ Some (double (counter st + 1))) →
  let doc := {| title := t; status := Some (default false sb);
                description := d; creationDate := Some now;
                id := Some (double (counter st + 1)) |} in
  post_task now body st
  = ({| tasks := tasks st ++ [doc]; counter := counter st + 1 |},
     res_status_json 201 (TaskJson doc))
  ∧ get_task (pretty (counter st + 1)) (post_task now body st).1
    = res_json (TaskJson doc)
  ∧ ∀ p, parseInt p = Some (double (counter st + 1)) →
         get_task p (post_task now body st).1 = res_json (TaskJson doc).
Proof.
  intros Ht Hte Hd Hde Hs Hfree doc.
  assert (post_task now body st
          = ({| tasks := tasks st ++ [doc]; counter := counter st + 1 |},
             res_status_json 201 (TaskJson doc))) as Hpost.
  { unfold post_task, validationResult, title_chain, description_chain,
      status_chain, standard_validation, Task_save, document_errors.
    rewrite Ht, Hd, Hs. simpl. unfold isEmpty.
    rewrite !bool_decide_eq_false_2 by done. simpl.
    assert (bool_decide (Exists (has_id (double (counter st + 1))) (tasks st)) = false)
      as Hnodup.
    { apply bool_decide_eq_false_2. intros (o & Ho & Hid)%Exists_exists.
      by apply (Hfree o). }
    destruct sb as [[]|]; simpl; by rewrite Hnodup. }
  rewrite Hpost. simpl. split_and!; [done| |].
  - apply (get_task_last _ (double (counter st + 1))); [apply parseInt_pretty|done|done].
  - intros p Hp. by apply (get_task_last _ (double (counter st + 1))).
Qed.

(** C10. Two POST bodies that agree on [title], [description] and
    [status] get the same response and leave the same store, whatever
    else they hold ([id], [creationDate], ...). *)
Theorem post_task_reads_three_fields (now : Z) (body1 body2 : gmap string json)
    (st : store) :
  body1 !! "title" = body2 !! "title" →
  body1 !! "description" = body2 !! "description" →
  body1 !! "status" = body2 !! "status" →
  post_task now body1 st = post_task now body2 st.
Proof.
  intros Ht Hd Hs.
  unfold post_task, validationResult, title_chain, description_chain,
    status_chain.
  by rewrite Ht, Hd, Hs.
Qed.

(** ** The unique index on [id] *)

Lemma unique_ids_initial : unique_ids initial_store.
Proof. constructor. Qed.

Lemma NoDup_fmap_insert {A B : Type} (f : A → B) (l : list A) (i : nat) (x : A) :
  (i < length l)%nat →
  NoDup (f <$> l) →
  ¬ Exists (λ o, f o = f x) (delete i l) →
  NoDup (f <$> <[i := x]> l).
Proof.
  intros Hi Hnd Hfresh.
  assert (NoDup (f <$> delete i l)) as Hdel.
  { rewrite list_fmap_delete. eapply sublist_NoDup; [exact Hnd|].
    apply sublist_delete. }
  assert (f x ∉ f <$> delete i l) as Hnotin.
  { intros (o & Ho & Hin)%list_elem_of_fmap. apply Hfresh.
    apply Exists_exists. eauto. }
  rewrite insert_take_drop by done.
  rewrite delete_take_drop in Hdel, Hnotin.
  rewrite fmap_app in *. rewrite fmap_cons.
  apply NoDup_app in Hdel as (H1 & H2 & H3).
  apply NoDup_app. split_and!; [done| |].
  - intros y Hy [->|Hy']%elem_of_cons.
    + apply Hnotin, elem_of_app. by left.
    + by apply (H2 y).
  - apply NoDup_cons. split; [|done].
    intros Hin. apply Hnotin, elem_of_app. by right.
Qed.

Lemma post_task_unique now body st :
  unique_ids st → unique_ids (post_task now body st).1.
Proof.
  unfold unique_ids, post_task, Task_save. intros Hnd.
  repeat case_match; simplify_eq/=; try done.
  rewrite fmap_app. simpl. apply NoDup_app. split_and!; [done| |].
  - intros o (t & -> & Hin)%list_elem_of_fmap [Heq|[]%elem_of_nil]%elem_of_cons.
    match goal with H : bool_decide _ = false |- _ =>
      apply bool_decide_eq_false in H; apply H end.
    apply Exists_exists. by exists t.
  - apply NoDup_singleton.
Qed.

Lemma delete_task_unique p st :
  unique_ids st → unique_ids (delete_task p st).1.
Proof.
  unfold unique_ids, delete_task, Task_findOneAndDelete. intros Hnd.
  repeat case_match; simplify_eq/=; try done.
  rewrite list_fmap_delete. eapply sublist_NoDup; [exact Hnd|].
  apply sublist_delete.
Qed.

(** With unique ids, the task with a given id is the one [findOne]
    returns. *)
Lemma list_find_unique (st : store) (t : Task) (n : number) :
  unique_ids st → t ∈ tasks st → id t = Some n →
  ∃ i, list_find (has_id n) (tasks st) = Some (i, t).
Proof.
  intros Hnd Hin Hid.
  destruct (list_find (has_id n) (tasks st)) as [[i t']|] eqn:Hfind.
  - exists i. apply list_find_Some in Hfind as (Hi & Hn & _).
    apply list_elem_of_lookup in Hin as [j Hj].
    assert (i = j) as ->; [|congruence].
    apply (proj1 (NoDup_alt _) Hnd i j (Some n)).
    + rewrite list_lookup_fmap, Hi. simpl. by f_equal.
    + rewrite list_lookup_fmap, Hj. simpl. by f_equal.
  - apply list_find_None in Hfind.
    rewrite Forall_forall in Hfind. by destruct (Hfind t Hin).
Qed.

Lemma elem_of_delete_lookup {A : Type} (l : list A) (i : nat) (x : A) :
  x ∈ delete i l → ∃ j, j ≠ i ∧ l !! j = Some x.
Proof.
  intros [k Hk]%list_elem_of_lookup.
  destruct (decide (k < i)%nat) as [Hlt|Hge].
  - exists k. rewrite list_lookup_delete_lt in Hk by done. split; [lia|done].
  - exists (S k). rewrite list_lookup_delete_ge in Hk by lia. split; [lia|done].
Qed.

(** ** DELETE /tasks/{id} *)

Lemma delete_task_counter p st :
  counter (delete_task p st).1 = counter st.
Proof.
  unfold delete_task, Task_findOneAndDelete.
  repeat case_match; simplify_eq/=; done.
Qed.

Lemma delete_task_present p n i t st :
  parseInt p = Some n → list_find (has_id n) (tasks st) = Some (i, t) →
  delete_task p st
  = ({| tasks := delete i (tasks st); counter := counter st |},
     res_status_json 200 (Message "Tarea eliminada correctamente")).
Proof.
  intros Hp Hfind. unfold delete_task, Task_findOneAndDelete.
  rewrite Hp. simpl. by rewrite Hfind.
Qed.

Lemma delete_task_absent p n st :
  parseInt p = Some n → (∀ t, t ∈ tasks st → id t ≠ Some n) →
  delete_task p st = (st, res_status_json 404 (Message "Tarea no encontrada")).
Proof.
  intros Hp Hno. unfold delete_task, Task_findOneAndDelete.
  rewrite Hp. simpl. by rewrite (list_find_absent n (tasks st) Hno).
Qed.

Lemma created_id_code r n : created_id r = Some n → code r = 201.
Proof.
  unfold created_id. destruct (decide (code r = 201)) as [->|Hne]; [done|].
  intros H. exfalso. repeat case_match; simplify_eq/=; lia.
Qed.

Lemma get_task_code p st : code (get_task p st) ≠ 201.
Proof.
  unfold get_task. repeat case_match; simpl; lia.
Qed.

Lemma delete_task_code p st : code (delete_task p st).2 ≠ 201.
Proof.
  unfold delete_task. repeat case_match; simpl; lia.
Qed.

(** ** Properties that hold on every host *)


(** *** PUT /tasks/{id}: what a cast update is *)

Lemma cast_field_absent {A : Type} (cast : json → cast_result A) body k :
  body !! k = None → cast_field cast body k = ([], None).
Proof. unfold cast_field. by intros ->. Qed.


Lemma cast_field_unnamed {A : Type} (cast : json → cast_result A) body k x :
  body !! k = None → cast_field cast body k = ([], x) → x = None.
Proof. intros Hk. rewrite cast_field_absent by done. by intros [= <-]. Qed.

Lemma castUpdate_inr body u :
  castUpdate body = inr u →
  cast_field castString body "title" = ([], set_title u)
  ∧ cast_field castBoolean body "status" = ([], set_status u)
  ∧ cast_field castString body "description" = ([], set_description u)
  ∧ cast_field castDate body "creationDate" = ([], set_creationDate u)
  ∧ cast_field castNumber body "id" = ([], set_id u)
  ∧ update_validators u = [].
Proof.
  unfold castUpdate.
  destruct (cast_field castString body "title") as [e1 t].
  destruct (cast_field castBoolean body "status") as [e2 s].
  destruct (cast_field castString body "description") as [e3 d].
  destruct (cast_field castDate body "creationDate") as [e4 c].
  destruct (cast_field castNumber body "id") as [e5 i].
  destruct (e1 ++ e2 ++ e3 ++ e4 ++ e5) eqn:He; [|done].
  apply app_eq_nil in He as [-> He]. apply app_eq_nil in He as [-> He].
  apply app_eq_nil in He as [-> He]. apply app_eq_nil in He as [-> ->].
  destruct (update_validators _) eqn:Hv; [|done].
  intros [= <-]. by simpl.
Qed.


Lemma put_task_cast_error p n body st e :
  parseInt p = Some n → castUpdate body = inl e →
  put_task p body st = (st, res_status_json 500 (ErrorMessage e)).
Proof.
  intros Hp Hc. unfold put_task, Task_findOneAndUpdate.
  rewrite Hp. simpl. by rewrite Hc.
Qed.

Lemma put_task_NaN p body st :
  parseInt p = None →
  put_task p body st = (st, res_status_json 500 (ErrorMessage (CastError "id"))).
Proof.
  intros Hp. unfold put_task, Task_findOneAndUpdate. by rewrite Hp.
Qed.

Lemma put_task_absent p n body st u :
  parseInt p = Some n → castUpdate body = inr u →
  (∀ t, t ∈ tasks st → id t ≠ Some n) →
  put_task p body st = (st, res_status_json 404 (Message "Tarea no encontrada")).
Proof.
  intros Hp Hc Hno. unfold put_task, Task_findOneAndUpdate.
  rewrite Hp. simpl. rewrite Hc.
  by rewrite (list_find_absent n (tasks st) Hno).
Qed.

Lemma put_task_ok p body st st' t' :
  put_task p body st = (st', res_status_json 200 (TaskJson t')) →
  ∃ n u i t,
    parseInt p = Some n ∧ castUpdate body = inr u
    ∧ list_find (has_id n) (tasks st) = Some (i, t)
    ∧ t' = apply_update u t
    ∧ st' = {| tasks := <[i := t']> (tasks st); counter := counter st |}.
Proof.
  unfold put_task, Task_findOneAndUpdate.
  destruct (parseInt p) as [n|]; simpl; [|done].
  destruct (castUpdate body) as [e|u]; [done|].
  destruct (list_find (has_id n) (tasks st)) as [[i t]|] eqn:Hfind; [|done].
  destruct (_ && _); [done|].
  intros [= <- <-]. by exists n, u, i, t.
Qed.

Lemma put_task_others p n body st o :
  parseInt p = Some n → o ∈ tasks st → id o ≠ Some n →
  o ∈ tasks (put_task p body st).1.
Proof.
  intros Hp Hin Hid. unfold put_task, Task_findOneAndUpdate.
  rewrite Hp. simpl.
  destruct (castUpdate body) as [e|u]; [done|].
  destruct (list_find (has_id n) (tasks st)) as [[i t]|] eqn:Hfind; [|done].
  destruct (_ && _); [done|]. simpl.
  apply list_find_Some in Hfind as (Hi & Hn & _).
  apply list_elem_of_lookup in Hin as [j Hj].
  apply list_elem_of_lookup. exists j.
  rewrite list_lookup_insert_ne; [done|]. intros ->. congruence.
Qed.

Lemma put_task_store p body st :
  (put_task p body st).1 = st
  ∨ ∃ t', put_task p body st
          = ((put_task p body st).1, res_status_json 200 (TaskJson t')).
Proof.
  unfold put_task, Task_findOneAndUpdate.
  repeat case_match; simplify_eq/=; eauto.
Qed.

(** A successful PUT with a plain update document replaces the targeted
    task by its update; a schema path the body does not name keeps its
    value.  In particular [id] and [creationDate] are kept by a body
    that names neither. *)
Lemma put_task_keeps_unnamed p body st st' t' :
  plain_update body →
  put_task p body st = (st', res_status_json 200 (TaskJson t')) →
  ∃ i t,
    tasks st !! i = Some t
    ∧ tasks st' = <[i := t']> (tasks st)
    ∧ counter st' = counter st
    ∧ (body !! "title" = None → title t' = title t)
    ∧ (body !! "status" = None → status t' = status t)
    ∧ (body !! "description" = None → description t' = description t)
    ∧ (body !! "creationDate" = None → creationDate t' = creationDate t)
    ∧ (body !! "id" = None → id t' = id t).
Proof.
  intros _ (n & u & i & t & Hp & Hc & Hfind & -> & ->)%put_task_ok.
  apply list_find_Some in Hfind as (Hi & _ & _).
  apply castUpdate_inr in Hc as (Ht & Hs & Hd & Hcd & Hid & _).
  exists i, t. split_and!; try done; intros Hk; simpl.
  - by rewrite (cast_field_unnamed _ _ _ _ Hk Ht).
  - by rewrite (cast_field_unnamed _ _ _ _ Hk Hs).
  - by rewrite (cast_field_unnamed _ _ _ _ Hk Hd).
  - by rewrite (cast_field_unnamed _ _ _ _ Hk Hcd).
  - by rewrite (cast_field_unnamed _ _ _ _ Hk Hid).
Qed.

Lemma put_task_counter p body st :
  counter (put_task p body st).1 = counter st.
Proof.
  unfold put_task, Task_findOneAndUpdate.
  repeat case_match; simplify_eq/=; done.
Qed.

Lemma put_task_code p body st : code (put_task p body st).2 ≠ 201.
Proof.
  unfold put_task. repeat case_match; simpl; lia.
Qed.

Lemma put_task_unique p body st :
  unique_ids st → unique_ids (put_task p body st).1.
Proof.
  unfold unique_ids, put_task, Task_findOneAndUpdate. intros Hnd.
  destruct (cast_id_condition (parseInt p)) as [e|n]; [done|].
  destruct (castUpdate body) as [e|u]; [done|].
  destruct (list_find (has_id n) (tasks st)) as [[i t]|] eqn:Hfind; [|done].
  apply list_find_Some in Hfind as (Hi & _ & _).
  destruct (bool_decide (id (apply_update u t) ≠ id t)) eqn:Hchange;
    destruct (bool_decide (Exists (λ o, id o = id (apply_update u t))
                             (delete i (tasks st)))) eqn:Hdup;
    try done.
  - apply bool_decide_eq_false in Hdup.
    apply NoDup_fmap_insert; [by eapply lookup_lt_Some|done|done].
  - apply bool_decide_eq_false in Hchange. apply dec_stable in Hchange.
    cbn [andb fst tasks]. rewrite list_fmap_insert, Hchange, list_insert_id;
      [done|]. by rewrite list_lookup_fmap, Hi.
  - apply bool_decide_eq_false in Hchange. apply dec_stable in Hchange.
    cbn [andb fst tasks]. rewrite list_fmap_insert, Hchange, list_insert_id;
      [done|]. by rewrite list_lookup_fmap, Hi.
Qed.

(** On every host, a PUT whose body is [{"id": m}] moves the targeted
    task to the id [m] when no stored task has it. *)
Lemma put_task_sets_id p n m i t st :
  parseInt p = Some n →
  list_find (has_id n) (tasks st) = Some (i, t) →
  (∀ o, o ∈ tasks st → id o ≠ Some m) →
  put_task p {[ "id" := JNum m ]} st
  = ({| tasks := <[i := {| title := title t; status := status t;
                           description := description t;
                           creationDate := creationDate t;
                           id := Some m |}]> (tasks st);
        counter := counter st |},
     res_status_json 200
       (TaskJson {| title := title t; status := status t;
                    description := description t;
                    creationDate := creationDate t; id := Some m |})).
Proof.
  intros Hp Hfind Hfree. unfold put_task, Task_findOneAndUpdate.
  rewrite Hp. simpl.
  assert (castUpdate {[ "id" := JNum m ]}
          = inr {| set_title := None; set_status := None;
                   set_description := None; set_creationDate := None;
                   set_id := Some (Some m) |}) as ->.
  { unfold castUpdate, cast_field.
    rewrite !lookup_singleton_ne by done. by rewrite lookup_singleton_eq. }
  rewrite Hfind. unfold apply_update. simpl.
  rewrite (bool_decide_eq_false_2
             (Exists (λ o, id o = Some m) (delete i (tasks st)))).
  { by rewrite andb_false_r. }
  intros (o & Ho & Hid)%Exists_exists.
  apply elem_of_delete_lookup in Ho as (j & _ & Hj).
  apply (Hfree o); [by eapply list_elem_of_lookup_2|done].
Qed.


(** C7 (amended). For an id that no stored task has, GET and DELETE
    answer 404 with a [message] and leave the store as it was.  PUT
    with a plain update document leaves the store as it was too; it
    answers 404 when the body passes the cast and the update
    validators, and 500 with the error's message when it does not. *)
Theorem unknown_id_is_404 (p : string) (n : number) (body : gmap string json)
    (st : store) :
  parseInt p = Some n →
  (∀ t, t ∈ tasks st → id t ≠ Some n) →
  plain_update body →
  get_task p st = res_status_json 404 (Message "Tarea no encontrada")
  ∧ delete_task p st
    = (st, res_status_json 404 (Message "Tarea no encontrada"))
  ∧ put_task p body st
    = (st, match castUpdate body with
           | inr _ => res_status_json 404 (Message "Tarea no encontrada")
           | inl e => res_status_json 500 (ErrorMessage e)
           end)
  ∧ has_message (get_task p st) = true
  ∧ has_message (delete_task p st).2 = true
  ∧ has_message (put_task p body st).2 = true.
Proof.
  intros Hp Hno _.
  assert (put_task p body st
    = (st, match castUpdate body with
           | inr _ => res_status_json 404 (Message "Tarea no encontrada")
           | inl e => res_status_json 500 (ErrorMessage e)
           end)) as Hput.
  { destruct (castUpdate body) as [e|u] eqn:Hc.
    - by apply (put_task_cast_error p n).
    - by apply (put_task_absent p n body st u). }
  rewrite Hput, (get_task_absent p n st Hp Hno),
    (delete_task_absent p n st Hp Hno).
  split_and!; try done. simpl. by destruct (castUpdate body).
Qed.

(** C9 (amended). The three routes with a path parameter use it only
    through [parseInt]: two parameters with the same [parseInt] get the
    same answer, so ["5abc"] is served as ["5"], and a parameter beyond
    the safe integers as the double nearest to it.  When [parseInt] gives
    a number, GET returns the first task with that id or 404, DELETE
    removes it or answers 404, and PUT leaves every task with another
    id in place.  When [parseInt] gives [NaN], the cast of the query
    fails: each route answers 500 with the cast error's message and the
    store is left as it was. *)
Theorem path_parameter_through_parseInt (p : string) (body : gmap string json)
    (st : store) :
  parseInt "5abc" = Some (Int 5)
  ∧ parseInt "9007199254740993" = Some (Int 9007199254740992)
  ∧ (∀ q, parseInt q = parseInt p →
       get_task q st = get_task p st
       ∧ put_task q body st = put_task p body st
       ∧ delete_task q st = delete_task p st)
  ∧ match parseInt p with
    | Some n =>
        get_task p st
        = match list_find (has_id n) (tasks st) with
          | Some (_, t) => res_json (TaskJson t)
          | None => res_status_json 404 (Message "Tarea no encontrada")
          end
        ∧ delete_task p st
          = match list_find (has_id n) (tasks st) with
            | Some (i, _) =>
                ({| tasks := delete i (tasks st); counter := counter st |},
                 res_status_json 200 (Message "Tarea eliminada correctamente"))
            | None =>
                (st, res_status_json 404 (Message "Tarea no encontrada"))
            end
        ∧ (∀ o, o ∈ tasks st → id o ≠ Some n →
                o ∈ tasks (put_task p body st).1)
        ∧ (∀ st' t', put_task p body st
                     = (st', res_status_json 200 (TaskJson t')) →
             ∃ i t, list_find (has_id n) (tasks st) = Some (i, t)
                    ∧ tasks st' = <[i := t']> (tasks st))
    | None =>
        get_task p st = res_status_json 500 (ErrorMessage (CastError "id"))
        ∧ put_task p body st
          = (st, res_status_json 500 (ErrorMessage (CastError "id")))
        ∧ delete_task p st
          = (st, res_status_json 500 (ErrorMessage (CastError "id")))
    end.
Proof.
  split_and!; [reflexivity|by vm_compute| |].
  { intros q Hq. unfold get_task, put_task, delete_task. by rewrite Hq. }
  destruct (parseInt p) as [n|] eqn:Hp.
  - split_and!.
    + unfold get_task, Task_findOne. rewrite Hp. simpl.
      by destruct (list_find _ _) as [[i t]|].
    + unfold delete_task, Task_findOneAndDelete. rewrite Hp. simpl.
      by destruct (list_find _ _) as [[i t]|].
    + intros o Hin Hid. by apply (put_task_others p n).
    + intros st' t' (n' & u & i & t & Hp' & _ & Hfind & _ & ->)%put_task_ok.
      simplify_eq. by exists i, t.
  - split_and!.
    + unfold get_task, Task_findOne. by rewrite Hp.
    + by apply put_task_NaN.
    + unfold delete_task, Task_findOneAndDelete. by rewrite Hp.
Qed.

(** *** Identifier assignment *)

Lemma handle_counter r st : counter st ≤ counter (handle r st).1.
Proof.
  destruct r; simpl; [lia|lia|apply post_task_counter|..].
  - rewrite put_task_counter. lia.
  - rewrite delete_task_counter. lia.
Qed.

Lemma handle_created r st n :
  created_id (handle r st).2 = Some n →
  n = double (counter st + 1) ∧ counter (handle r st).1 = counter st + 1.
Proof.
  destruct r as [q|p|now body|p body|p]; simpl.
  - intros H%created_id_code. by destruct q.
  - intros H%created_id_code. by destruct (get_task_code p st).
  - by intros [-> ->]%post_task_created.
  - intros H%created_id_code. by destruct (put_task_code p body st).
  - intros H%created_id_code. by destruct (delete_task_code p st).
Qed.

Lemma run_cons st r rest :
  run st (r :: rest)
  = ((run (handle r st).1 rest).1, (handle r st).2 :: (run (handle r st).1 rest).2).
Proof.
  simpl. destruct (handle r st) as [st1 resp]; simpl.
  by destruct (run st1 rest).
Qed.

Lemma run_app st reqs1 reqs2 :
  run st (reqs1 ++ reqs2)
  = ((run (run st reqs1).1 reqs2).1,
     (run st reqs1).2 ++ (run (run st reqs1).1 reqs2).2).
Proof.
  revert st. induction reqs1 as [|r rest IH]; intros st.
  - simpl. by destruct (run st reqs2).
  - rewrite <-app_comm_cons, !run_cons, IH. done.
Qed.

(** The ids the creates of a run hand out are the values the counter
    takes one after the other, each as a JavaScript number. *)
Lemma created_ids_above st reqs :
  ∃ cs : list Z,
    created_ids (run st reqs).2 = double <$> cs
    ∧ Forall (λ c, counter st < c ≤ counter (run st reqs).1) cs
    ∧ StronglySorted Z.lt cs
    ∧ counter st ≤ counter (run st reqs).1.
Proof.
  revert st. induction reqs as [|r rest IH]; intros st.
  { exists []. split_and!; [done|constructor|constructor|done]. }
  rewrite run_cons. simpl.
  destruct (IH (handle r st).1) as (cs & Hcs & Habove & Hsorted & Hmono).
  pose proof (handle_counter r st) as Hle.
  unfold created_ids in *. simpl.
  destruct (created_id (handle r st).2) as [n|] eqn:Hn.
  - apply handle_created in Hn as [-> Hc].
    exists ((counter st + 1) :: cs). rewrite Hcs. split_and!; [done| | |lia].
    + constructor; [lia|]. eapply Forall_impl; [exact Habove|]. simpl. lia.
    + constructor; [done|]. eapply Forall_impl; [exact Habove|]. simpl. lia.
  - exists cs. split_and!; [done| |done|lia].
    eapply Forall_impl; [exact Habove|]. simpl. lia.
Qed.

(** C2. The code hands an id out again: a create gives the first task
    the id 1, a PUT on it with the body [{"id": 2}] moves it to the id
    2, a DELETE removes it, and the next create, whose counter value is
    2, is answered 201 with a new task under the id 2, the id of the
    task that was deleted. *)
Theorem id_reused_after_put_and_delete :
  run initial_store requests_reuse
  = ({| tasks := [task_milk_again]; counter := 2 |},
     [res_status_json 201 (TaskJson task_milk);
      res_status_json 200 (TaskJson task_milk_2);
      res_status_json 200 (Message "Tarea eliminada correctamente");
      res_status_json 201 (TaskJson task_milk_again)])
  ∧ id task_milk_2 = Some (Int 2)
  ∧ id task_milk_again = Some (Int 2).
Proof. split_and!; [by vm_compute|done|done]. Qed.

(** *** Reachable stores *)

Lemma handle_unique r st : unique_ids st → unique_ids (handle r st).1.
Proof.
  destruct r; simpl;
    auto using post_task_unique, put_task_unique, delete_task_unique.
Qed.

Lemma run_unique reqs st : unique_ids st → unique_ids (run st reqs).1.
Proof.
  revert st. induction reqs as [|r rest IH]; intros st Hst; [done|].
  rewrite run_cons. simpl. by apply IH, handle_unique.
Qed.

(** C8. In every state the service can reach, DELETE on the id of an
    existing task answers 200 with the confirmation message and removes
    that task from the collection; no task with that id is left, and
    the GET on the same id that follows answers 404. *)
Theorem delete_then_get_not_found (reqs : list request) (p : string) (n : number)
    (t : Task) :
  parseInt p = Some n →
  t ∈ tasks (run initial_store reqs).1 →
  id t = Some n →
  ∃ st' i,
    delete_task p (run initial_store reqs).1
    = (st', res_status_json 200 (Message "Tarea eliminada correctamente"))
    ∧ tasks (run initial_store reqs).1 !! i = Some t
    ∧ tasks st' = delete i (tasks (run initial_store reqs).1)
    ∧ (∀ t', t' ∈ tasks st' → id t' ≠ Some n)
    ∧ get_task p st' = res_status_json 404 (Message "Tarea no encontrada").
Proof.
  intros Hp Hin Hid.
  pose proof (run_unique reqs initial_store unique_ids_initial) as Hnd.
  set (st := (run initial_store reqs).1) in *.
  destruct (list_find_unique st t n Hnd Hin Hid) as [i Hfind].
  pose proof Hfind as (Hi & _ & _)%list_find_Some.
  assert (∀ t', t' ∈ delete i (tasks st) → id t' ≠ Some n) as Hgone.
  { intros t' (j & Hji & Hj)%elem_of_delete_lookup Hid'. apply Hji.
    apply (proj1 (NoDup_alt _) Hnd j i (Some n)).
    - rewrite list_lookup_fmap, Hj. simpl. by f_equal.
    - rewrite list_lookup_fmap, Hi. simpl. by f_equal. }
  eexists _, i. split_and!.
  - by apply (delete_task_present p n i t).
  - done.
  - done.
  - exact Hgone.
  - by apply (get_task_absent p n).
Qed.

Lemma handle_ids_from_counter r st :
  leaves_id r → ids_from_counter st → ids_from_counter (handle r st).1.
Proof.
  intros Hr Hst. destruct r as [q|p|now body|p body|p]; simpl; try done.
  - unfold post_task.
    destruct (validationResult body); [|done].
    destruct (Task_save _ _ _ _ _) as [st' [e|t]] eqn:Hsave; simpl.
    + unfold Task_save in Hsave.
      repeat case_match; simplify_eq/=; try done.
      intros o Ho. destruct (Hst o Ho) as (n & Hn & Hle).
      exists n. split; [done|]. simpl. lia.
    + apply Task_save_created in Hsave as (Hid & Hc & Htasks).
      intros o Ho. rewrite Htasks in Ho.
      apply elem_of_app in Ho as [Ho|Ho%list_elem_of_singleton].
      * destruct (Hst o Ho) as (n & Hn & Hle). exists n. split; [done|lia].
      * subst o. exists (counter st + 1). split; [done|lia].
  - destruct (put_task_store p body st) as [->|[t' Hput]]; [done|].
    destruct Hr as [Hplain Hr].
    apply put_task_keeps_unnamed in Hput
      as (i & t & Hi & Htasks & Hc & _ & _ & _ & _ & Hid); [|done].
    intros o Ho. rewrite Htasks in Ho. rewrite Hc.
    apply list_elem_of_lookup in Ho as [j Hj].
    destruct (decide (i = j)) as [->|Hij].
    + rewrite list_lookup_insert_eq in Hj by (by eapply lookup_lt_Some).
      simplify_eq. rewrite (Hid Hr).
      apply Hst. by eapply list_elem_of_lookup_2.
    + rewrite list_lookup_insert_ne in Hj by done.
      apply Hst. by eapply list_elem_of_lookup_2.
  - unfold delete_task, Task_findOneAndDelete.
    repeat case_match; simplify_eq/=; try done.
    intros o (j & _ & Hj)%elem_of_delete_lookup.
    apply Hst. by eapply list_elem_of_lookup_2.
Qed.

Lemma run_ids_from_counter reqs st :
  Forall leaves_id reqs → ids_from_counter st →
  ids_from_counter (run st reqs).1.
Proof.
  revert st. induction reqs as [|r rest IH]; intros st Hall Hst; [done|].
  apply Forall_cons in Hall as [Hr Hall].
  rewrite run_cons. simpl. by apply IH, handle_ids_from_counter.
Qed.

(** As long as no PUT names [id] and the counter is a safe integer,
    the next counter value is free. *)
Lemma next_id_free reqs :
  Forall leaves_id reqs →
  counter (run initial_store reqs).1 < 2 ^ 53 →
  ∀ o, o ∈ tasks (run initial_store reqs).1 →
       id o ≠ Some (double (counter (run initial_store reqs).1 + 1)).
Proof.
  intros Hall Hsafe o Ho Hid.
  destruct (created_ids_above initial_store reqs) as (_ & _ & _ & _ & Hpos).
  simpl in Hpos.
  destruct (run_ids_from_counter reqs initial_store Hall) with (o := o)
    as (n & Hn & Hle); [by intros ? ?%elem_of_nil|done|].
  rewrite Hn in Hid. simplify_eq.
  rewrite (double_safe (counter (run initial_store reqs).1 + 1)) in Hid
    by (unfold safe_integer; apply Z.leb_le; lia).
  pose proof (double_positive _ _ Hid ltac:(lia)) as Hpos'.
  rewrite double_safe in Hid by (unfold safe_integer; apply Z.leb_le; lia).
  simplify_eq. lia.
Qed.


(** * Further properties of the routes *)

(** ** POST /tasks: outcomes *)

Lemma Task_save_inr now tv sv dv st st' t :
  Task_save now tv sv dv st = (st', inr t) →
  from_option castString (Some None) tv = Some (Some (title t))
  ∧ title t ≠ ""
  ∧ from_option castString (Some None) dv = Some (Some (description t))
  ∧ description t ≠ ""
  ∧ from_option castBoolean (Some (Some false)) sv = Some (status t)
  ∧ creationDate t = Some now
  ∧ id t = Some (double (counter st + 1))
  ∧ (∀ o, o ∈ tasks st → id o ≠ Some (double (counter st + 1)))
  ∧ st' = {| tasks := tasks st ++ [t]; counter := counter st + 1 |}.
Proof.
  unfold Task_save, document_errors. intros Hsave.
  destruct (from_option castString (Some None) tv) as [[t'|]|] eqn:Ht;
    try (repeat case_match; by simplify_eq/=).
  destruct (from_option castBoolean (Some (Some false)) sv) as [s'|] eqn:Hs;
    try (repeat case_match; by simplify_eq/=).
  destruct (from_option castString (Some None) dv) as [[d'|]|] eqn:Hd;
    try (repeat case_match; by simplify_eq/=).
  simpl in Hsave.
  destruct (bool_decide (t' = "")) eqn:Hte; simpl in Hsave; [done|].
  destruct (bool_decide (d' = "")) eqn:Hde; simpl in Hsave; [done|].
  apply bool_decide_eq_false in Hte, Hde.
  case_bool_decide as Hdup; simplify_eq/=.
  split_and!; try done.
  intros o Ho Hid. apply Hdup, Exists_exists. by exists o.
Qed.

Lemma Task_save_inl now tv sv dv st st' e :
  Task_save now tv sv dv st = (st', inl e) →
  tasks st' = tasks st ∧ counter st ≤ counter st' ≤ counter st + 1.
Proof.
  unfold Task_save. intros Hsave.
  repeat case_match; simplify_eq/=; split; done || lia.
Qed.

(** A POST answered 201 went through [save]. *)
Lemma post_task_201 now body st st' r :
  post_task now body st = (st', r) → code r = 201 →
  ∃ t, validationResult body = []
       ∧ Task_save now (body !! "title") (body !! "status")
           (body !! "description") st = (st', inr t)
       ∧ r = res_status_json 201 (TaskJson t).
Proof.
  unfold post_task.
  destruct (validationResult body) as [|err errs] eqn:Hv;
    [|intros [= <- <-]; done].
  destruct (Task_save _ _ _ _ _) as [st1 [e|t]] eqn:Hsave;
    intros [= <- <-]; [done|]. intros _. by exists t.
Qed.

(** A status that passed the validation is not [null]. *)
Lemma status_chain_null body :
  body !! "status" = Some JNull → status_chain body ≠ [].
Proof. unfold status_chain. by intros ->. Qed.

Lemma castBoolean_null v : castBoolean v = Some None → v = JNull.
Proof.
  unfold castBoolean. intros H.
  repeat case_match; by simplify_eq.
Qed.

(** X1. A POST is answered 201, 400 or 500.  It is answered 400 exactly
    when the validation reports an error, and then the store is left as
    it was.  Whatever the answer, the stored tasks stay in place: the
    collection is extended by the created task when the answer is 201
    and is unchanged otherwise, and the counter grows by at most
    one. *)
Theorem post_task_outcome (now : Z) (body : gmap string json) (st : store) :
  (code (post_task now body st).2 = 201
   ∨ code (post_task now body st).2 = 400
   ∨ code (post_task now body st).2 = 500)
  ∧ (code (post_task now body st).2 = 400 ↔ validationResult body ≠ [])
  ∧ (code (post_task now body st).2 = 400 → (post_task now body st).1 = st)
  ∧ tasks st `prefix_of` tasks (post_task now body st).1
  ∧ (code (post_task now body st).2 ≠ 201 →
     tasks (post_task now body st).1 = tasks st)
  ∧ (code (post_task now body st).2 = 201 →
     length (tasks (post_task now body st).1) = S (length (tasks st)))
  ∧ counter st ≤ counter (post_task now body st).1 ≤ counter st + 1.
Proof.
  unfold post_task.
  destruct (validationResult body) as [|err errs] eqn:Hv.
  - destruct (Task_save _ _ _ _ _) as [st' [e|t]] eqn:Hsave; simpl.
    + apply Task_save_inl in Hsave as [Htasks Hc].
      rewrite Htasks. split_and!; try done; try lia; auto.
    + apply Task_save_inr in Hsave as (_&_&_&_&_&_&_&_&->). simpl.
      split_and!; try done; try lia; auto.
      * by apply prefix_app_r.
      * intros _. rewrite length_app. simpl. lia.
  - simpl. split_and!; try done; try lia; auto.
Qed.

(** X2. What a 201 tells: the created task was appended to the
    collection and the counter moved to its id, which no other stored
    task has; its creation date is the clock, its status is a boolean
    ([false] when the body has none), and its title and description are
    the non-empty strings the body's values cast to. *)
Theorem post_created_task (now : Z) (body : gmap string json)
    (st st' : store) (r : response) :
  post_task now body st = (st', r) → code r = 201 →
  ∃ t b tv dv,
    r = res_status_json 201 (TaskJson t)
    ∧ st' = {| tasks := tasks st ++ [t]; counter := counter st + 1 |}
    ∧ id t = Some (double (counter st + 1))
    ∧ (∀ o, o ∈ tasks st → id o ≠ id t)
    ∧ creationDate t = Some now
    ∧ status t = Some b
    ∧ (body !! "status" = None → b = false)
    ∧ body !! "title" = Some tv ∧ castString tv = Some (Some (title t))
    ∧ title t ≠ ""
    ∧ body !! "description" = Some dv
    ∧ castString dv = Some (Some (description t))
    ∧ description t ≠ "".
Proof.
  intros Hpost Hcode.
  destruct (post_task_201 now body st st' r Hpost Hcode)
    as (t & Hv & Hsave & ->).
  apply Task_save_inr in Hsave
    as (Ht & Hte & Hd & Hde & Hs & Hcd & Hid & Hfree & ->).
  unfold validationResult in Hv.
  apply app_eq_nil in Hv as [_ Hv]. apply app_eq_nil in Hv as [_ Hsc].
  assert (∃ b, status t = Some b ∧ (body !! "status" = None → b = false))
    as (b & Hb & Hbf).
  { destruct (body !! "status") as [sv|] eqn:Hsv; simpl in Hs.
    - destruct (status t) as [b|]; [exists b; by split|].
      apply castBoolean_null in Hs as ->.
      by destruct (status_chain_null body Hsv).
    - simplify_eq. exists false. by rewrite <-Hs. }
  destruct (body !! "title") as [tv|]; [|done].
  destruct (body !! "description") as [dv|]; [|done].
  exists t, b, tv, dv. split_and!; try done.
  intros o Ho. rewrite Hid. by apply Hfree.
Qed.

(** ** DELETE /tasks/{id}: outcomes *)

(** X3. A DELETE is answered 200 exactly when a stored task has the id
    [parseInt] reads from the path, 404 exactly when [parseInt] reads a
    number that no task has, and 500 exactly when it reads [NaN].  On
    200 the collection loses one task and keeps the others in their
    order; otherwise the store is left as it was.  The counter is never
    touched. *)
Theorem delete_task_outcome (p : string) (st : store) :
  (code (delete_task p st).2 = 200
   ↔ ∃ n t, parseInt p = Some n ∧ t ∈ tasks st ∧ id t = Some n)
  ∧ (code (delete_task p st).2 = 404
     ↔ ∃ n, parseInt p = Some n ∧ ∀ t, t ∈ tasks st → id t ≠ Some n)
  ∧ (code (delete_task p st).2 = 500 ↔ parseInt p = None)
  ∧ counter (delete_task p st).1 = counter st
  ∧ tasks (delete_task p st).1 `sublist_of` tasks st
  ∧ (code (delete_task p st).2 = 200 →
     length (tasks st) = S (length (tasks (delete_task p st).1)))
  ∧ (code (delete_task p st).2 ≠ 200 → (delete_task p st).1 = st).
Proof.
  unfold delete_task, Task_findOneAndDelete.
  destruct (parseInt p) as [n|] eqn:Hp; simpl.
  - destruct (list_find (has_id n) (tasks st)) as [[i t]|] eqn:Hfind; simpl.
    + pose proof Hfind as (Hi & Hn & _)%list_find_Some.
      split_and!; try done.
      * split; [intros _|done]. exists n, t.
        split_and!; [done|by eapply list_elem_of_lookup_2|done].
      * split; [done|]. intros (n' & [= <-] & Hno).
        destruct (Hno t); [by eapply list_elem_of_lookup_2|done].
      * apply sublist_delete.
      * intros _. rewrite length_delete by eauto.
        apply lookup_lt_Some in Hi. lia.
    + apply list_find_None in Hfind. rewrite Forall_forall in Hfind.
      split_and!; try done.
      * split; [done|]. intros (n' & t & [= <-] & Hin & Hid).
        by destruct (Hfind t Hin).
      * split; [intros _|done]. by exists n.
  - split_and!; try done.
    + split; [done|]. by intros (n & t & ? & _).
    + split; [done|]. by intros (n & ? & _).
Qed.

(** X4. A create followed by the DELETE of the id it returned brings the
    collection back to what it was; only the counter keeps its
    increment, so the id is not handed out again. *)
Theorem post_then_delete (now : Z) (body : gmap string json) (st st' : store)
    (r : response) :
  post_task now body st = (st', r) → code r = 201 →
  delete_task (pretty (counter st + 1)) st'
  = ({| tasks := tasks st; counter := counter st + 1 |},
     res_status_json 200 (Message "Tarea eliminada correctamente")).
Proof.
  intros Hpost Hcode.
  destruct (post_task_201 now body st st' r Hpost Hcode)
    as (t & _ & Hsave & _).
  apply Task_save_inr in Hsave as (_&_&_&_&_&_& Hid & Hfree & ->).
  assert (list_find (has_id (double (counter st + 1))) (tasks st ++ [t])
          = Some (length (tasks st), t)) as Hfind.
  { apply list_find_Some. split_and!.
    - rewrite lookup_app_r by lia. by rewrite Nat.sub_diag.
    - done.
    - intros j y Hj Hlt. rewrite lookup_app_l in Hj by done.
      apply Hfree. by eapply list_elem_of_lookup_2. }
  rewrite (delete_task_present _ (double (counter st + 1)) (length (tasks st)) t);
    [|apply parseInt_pretty|done].
  simpl. do 2 f_equal.
  rewrite delete_take_drop, take_app_length.
  rewrite drop_ge by (rewrite length_app; simpl; lia).
  by rewrite app_nil_r.
Qed.

(** ** GET /tasks: the two filtered listings *)

Lemma filter_status_lengths (l : list Task) :
  (length (filter (λ t, status t = Some true) l)
   + length (filter (λ t, status t = Some false) l)
   + length (filter (λ t, status t = None) l) = length l)%nat.
Proof.
  induction l as [|t l IH]; [done|].
  rewrite !filter_cons.
  destruct (status t) as [[]|] eqn:Hs; repeat case_decide; try done;
    simpl; lia.
Qed.

(** X5. A filtered listing is a part of the unfiltered one, in the same
    order.  No task is in both the [status=true] listing and a listing
    for another value, and a task whose stored status is [null] is in
    neither: the two listings together have as many tasks as the
    unfiltered one exactly when no stored status is [null]. *)
Theorem get_tasks_listings (st : store) (v : json) :
  listed (get_tasks None st) = tasks st
  ∧ listed (get_tasks (Some v) st) `sublist_of` listed (get_tasks None st)
  ∧ (∀ t, t ∈ listed (get_tasks (Some v) st) → status t ≠ None)
  ∧ (∀ t, t ∈ listed (get_tasks (Some (JStr "true")) st) →
          t ∉ listed (get_tasks (Some (JStr "false")) st))
  ∧ ((length (listed (get_tasks (Some (JStr "true")) st))
      + length (listed (get_tasks (Some (JStr "false")) st))
      = length (tasks st))%nat
     ↔ ∀ t, t ∈ tasks st → status t ≠ None).
Proof.
  unfold get_tasks, Task_find, listed. simpl.
  split_and!; [done|apply sublist_filter| | |].
  - intros t [Ht _]%list_elem_of_filter. by rewrite Ht.
  - intros t [Ht _]%list_elem_of_filter [Hf _]%list_elem_of_filter.
    congruence.
  - pose proof (filter_status_lengths (tasks st)) as Hlen.
    split.
    + intros Heq t Hin Hnone.
      assert (t ∈ filter (λ t, status t = None) (tasks st)) as Hmem.
      { by apply list_elem_of_filter. }
      destruct (filter (λ t, status t = None) (tasks st));
        [by apply elem_of_nil in Hmem|simpl in Hlen; lia].
    + intros Hall.
      destruct (filter (λ t, status t = None) (tasks st)) as [|x l] eqn:Hnone;
        [simpl in Hlen; lia|].
      assert (x ∈ filter (λ t, status t = None) (tasks st)) as Hx.
      { rewrite Hnone. by left. }
      apply list_elem_of_filter in Hx as [Hs Hin]. by destruct (Hall x Hin).
Qed.

(** ** Further properties that hold on every host *)


(** *** PUT /tasks/{id}: frame, empty updates, repetition *)

Lemma put_task_code_200 p body st :
  code (put_task p body st).2 = 200 →
  ∃ t', put_task p body st
        = ((put_task p body st).1, res_status_json 200 (TaskJson t')).
Proof.
  unfold put_task, Task_findOneAndUpdate.
  repeat case_match; simplify_eq/=; try done; eauto.
Qed.

(** X7. Whatever its body, a PUT neither adds nor removes a task and
    never touches the counter.  It changes the task at one position at
    most, and leaves the whole store as it was unless it is answered
    200. *)
Theorem put_task_frame (p : string) (body : gmap string json) (st : store) :
  plain_update body →
  length (tasks (put_task p body st).1) = length (tasks st)
  ∧ counter (put_task p body st).1 = counter st
  ∧ (code (put_task p body st).2 ≠ 200 → (put_task p body st).1 = st)
  ∧ ∃ i : nat, ∀ j : nat,
      j ≠ i → tasks (put_task p body st).1 !! j = tasks st !! j.
Proof.
  intros _. split_and!.
  - destruct (put_task_store p body st) as [->|[t' Hput]]; [done|].
    apply put_task_ok in Hput as (n & u & i & t & _ & _ & _ & _ & ->).
    apply length_insert.
  - apply put_task_counter.
  - intros Hcode. destruct (put_task_store p body st) as [->|[t' Hput]];
      [done|]. rewrite Hput in Hcode. done.
  - destruct (put_task_store p body st) as [->|[t' Hput]]; [by exists 0%nat|].
    apply put_task_ok in Hput as (n & u & i & t & _ & _ & _ & _ & ->).
    exists i. intros j Hj. simpl. by apply list_lookup_insert_ne.
Qed.

Lemma apply_update_nothing (t : Task) :
  apply_update {| set_title := None; set_status := None;
                  set_description := None; set_creationDate := None;
                  set_id := None |} t = t.
Proof. by destruct t. Qed.

Lemma apply_update_twice (u : update) (t : Task) :
  apply_update u (apply_update u t) = apply_update u t.
Proof.
  unfold apply_update. simpl.
  destruct (set_title u) as [[?|]|], (set_status u), (set_description u)
    as [[?|]|], (set_creationDate u), (set_id u); done.
Qed.

(** A PUT that finds its task and keeps the task's id. *)
Lemma put_task_found p n body st u i t :
  parseInt p = Some n → castUpdate body = inr u →
  list_find (has_id n) (tasks st) = Some (i, t) →
  id (apply_update u t) = id t →
  put_task p body st
  = ({| tasks := <[i := apply_update u t]> (tasks st); counter := counter st |},
     res_status_json 200 (TaskJson (apply_update u t))).
Proof.
  intros Hp Hc Hfind Hid. unfold put_task, Task_findOneAndUpdate.
  rewrite Hp. simpl. rewrite Hc, Hfind.
  rewrite (bool_decide_eq_false_2 (id (apply_update u t) ≠ id t)); [done|].
  by intros [].
Qed.

(** X8. A PUT whose body names no path of the schema (the empty object,
    or only unknown keys, which strict mode drops) changes nothing and
    answers as the GET on the same path does: the found task with 200,
    or 404, or 500 for a path that is not a number. *)
Theorem put_task_no_schema_path (p : string) (body : gmap string json)
    (st : store) :
  plain_update body →
  (∀ k, k ∈ schema_paths → body !! k = None) →
  put_task p body st = (st, get_task p st).
Proof.
  intros _ Hnone.
  assert (castUpdate body
          = inr {| set_title := None; set_status := None;
                   set_description := None; set_creationDate := None;
                   set_id := None |}) as Hc.
  { unfold castUpdate, cast_field.
    rewrite !Hnone by (apply (bool_decide_unpack _); by vm_compute). done. }
  unfold get_task, Task_findOne.
  destruct (parseInt p) as [n|] eqn:Hp; [|by apply put_task_NaN].
  simpl. destruct (list_find (has_id n) (tasks st)) as [[i t]|] eqn:Hfind.
  - pose proof Hfind as (Hi & _ & _)%list_find_Some.
    rewrite (put_task_found p n body st _ i t Hp Hc Hfind);
      rewrite apply_update_nothing; [|done].
    rewrite list_insert_id by done. by destruct st.
  - apply list_find_None in Hfind. rewrite Forall_forall in Hfind.
    by apply (put_task_absent p n body st _ Hp Hc).
Qed.

(** X9. A PUT whose body does not name [id] can be repeated: the second
    time it gets the same answer and leaves the store as the first
    left it. *)
Theorem put_task_idempotent (p : string) (body : gmap string json)
    (st : store) :
  plain_update body → body !! "id" = None →
  put_task p body (put_task p body st).1 = put_task p body st.
Proof.
  intros _ Hid.
  destruct (parseInt p) as [n|] eqn:Hp; [|by rewrite !put_task_NaN].
  destruct (castUpdate body) as [e|u] eqn:Hc.
  { by rewrite !(put_task_cast_error p n body _ e Hp Hc). }
  destruct (list_find (has_id n) (tasks st)) as [[i t]|] eqn:Hfind.
  - pose proof Hfind as (Hi & Hn & Hfirst)%list_find_Some.
    pose proof Hc as (_ & _ & _ & _ & Hci & _)%castUpdate_inr.
    apply (cast_field_unnamed _ _ _ _ Hid) in Hci.
    assert (id (apply_update u t) = id t) as Hkeep.
    { unfold apply_update. simpl. by rewrite Hci. }
    rewrite (put_task_found p n body st u i t Hp Hc Hfind Hkeep). simpl.
    rewrite (put_task_found p n body _ u i (apply_update u t) Hp Hc).
    + simpl. by rewrite apply_update_twice, list_insert_insert_eq.
    + simpl. apply list_find_Some. split_and!.
      * apply list_lookup_insert_eq. by eapply lookup_lt_Some.
      * unfold has_id. by rewrite Hkeep.
      * intros j y Hj Hlt. rewrite list_lookup_insert_ne in Hj by lia.
        by apply (Hfirst j).
    + by rewrite apply_update_twice.
  - apply list_find_None in Hfind. rewrite Forall_forall in Hfind.
    rewrite (put_task_absent p n body st u Hp Hc Hfind). simpl.
    by rewrite (put_task_absent p n body st u Hp Hc Hfind).
Qed.

(** X10. A task whose [id] is [null] is out of reach of the three
    routes with a path parameter: GET never returns it, and DELETE and
    PUT leave it in the collection, whatever the path and the body. *)
Theorem task_without_id_out_of_reach (p : string) (body : gmap string json)
    (st : store) (t : Task) :
  t ∈ tasks st → id t = None →
  get_task p st ≠ res_json (TaskJson t)
  ∧ t ∈ tasks (delete_task p st).1
  ∧ t ∈ tasks (put_task p body st).1.
Proof.
  intros Hin Hid. split_and!.
  - unfold get_task, Task_findOne.
    destruct (parseInt p) as [n|]; simpl; [|done].
    destruct (list_find (has_id n) (tasks st)) as [[i o]|] eqn:Hfind; [|done].
    apply list_find_Some in Hfind as (_ & Hn & _).
    intros [= ->]. unfold has_id in Hn. congruence.
  - unfold delete_task, Task_findOneAndDelete.
    destruct (parseInt p) as [n|]; simpl; [|done].
    destruct (list_find (has_id n) (tasks st)) as [[i o]|] eqn:Hfind; [|done].
    apply list_find_Some in Hfind as (Hi & Hn & _). simpl.
    apply list_elem_of_lookup in Hin as [j Hj].
    assert (j ≠ i) as Hji.
    { intros ->. unfold has_id in Hn. congruence. }
    apply list_elem_of_lookup.
    destruct (decide (j < i)%nat).
    + exists j. by rewrite list_lookup_delete_lt.
    + exists (pred j). rewrite list_lookup_delete_ge by lia.
      by replace (S (pred j)) with j by lia.
  - destruct (parseInt p) as [n|] eqn:Hp.
    + apply (put_task_others p n); [done|done|congruence].
    + by rewrite put_task_NaN.
Qed.

(** *** Response shapes *)

(** X11. The body of every response goes with its status code: a list
    of tasks comes with 200, a task with 200 or 201, the confirmation
    of a delete with 200, the not-found message with 404, the array of
    validation errors, never empty, with 400, and the message of a
    caught error with 500.  No other code or message is sent. *)
Theorem response_shapes (r : request) (st : store) :
  match json_body (handle r st).2 with
  | TaskList _ => code (handle r st).2 = 200
  | TaskJson _ => code (handle r st).2 = 200 ∨ code (handle r st).2 = 201
  | Message m =>
      (code (handle r st).2 = 200 ∧ m = "Tarea eliminada correctamente")
      ∨ (code (handle r st).2 = 404 ∧ m = "Tarea no encontrada")
  | ErrorMessage _ => code (handle r st).2 = 500
  | ValidationErrors errors => code (handle r st).2 = 400 ∧ errors ≠ []
  end.
Proof.
  destruct r as [q|p|now body|p body|p]; simpl.
  - unfold get_tasks. by destruct q.
  - unfold get_task. repeat case_match; simplify_eq/=; auto.
  - unfold post_task. repeat case_match; simplify_eq/=; auto.
  - unfold put_task. repeat case_match; simplify_eq/=; auto.
  - unfold delete_task. repeat case_match; simplify_eq/=; auto.
Qed.

(** *** Invariants of the reachable stores *)

Lemma handle_required r st :
  required_fields st → required_fields (handle r st).1.
Proof.
  intros Hst. destruct r as [q|p|now body|p body|p]; simpl; try done.
  - destruct (post_task now body st) as [st' r] eqn:Hpost. simpl.
    destruct (decide (code r = 201)) as [Hcode|Hcode].
    + destruct (post_task_201 now body st st' r Hpost Hcode)
        as (t & _ & Hsave & _).
      apply Task_save_inr in Hsave as (_ & Ht & _ & Hd & _ & _ & _ & _ & ->).
      intros o Ho. simpl in Ho.
      apply elem_of_app in Ho as [Ho|Ho%list_elem_of_singleton];
        [by apply Hst|by subst o].
    + unfold post_task in Hpost.
      destruct (validationResult body); [|by simplify_eq].
      destruct (Task_save _ _ _ _ _) as [st1 [e|t]] eqn:Hsave;
        simplify_eq/=; try done.
      apply Task_save_inl in Hsave as [Htasks _].
      intros o Ho. rewrite Htasks in Ho. by apply Hst.
  - destruct (put_task_store p body st) as [->|[t' Hput]]; [done|].
    apply put_task_ok in Hput as (n & u & i & t & _ & Hc & Hfind & -> & ->).
    apply list_find_Some in Hfind as (Hi & _ & _).
    apply castUpdate_inr in Hc as (_ & _ & _ & _ & _ & Hv).
    unfold update_validators in Hv. apply app_eq_nil in Hv as [Hvt Hvd].
    assert (t ∈ tasks st) as Hin by (by eapply list_elem_of_lookup_2).
    destruct (Hst t Hin) as [Ht Hd].
    intros o [j Hj]%list_elem_of_lookup. simpl in Hj.
    destruct (decide (i = j)) as [->|Hij].
    + rewrite list_lookup_insert_eq in Hj by (by eapply lookup_lt_Some).
      simplify_eq. unfold apply_update. simpl. split.
      * destruct (set_title u) as [[s|]|]; simpl in *; try done.
        unfold checkRequired in Hvt. case_bool_decide; by simplify_eq/=.
      * destruct (set_description u) as [[s|]|]; simpl in *; try done.
        unfold checkRequired in Hvd. case_bool_decide; by simplify_eq/=.
    + rewrite list_lookup_insert_ne in Hj by done.
      apply Hst. by eapply list_elem_of_lookup_2.
  - unfold delete_task, Task_findOneAndDelete.
    repeat case_match; simplify_eq/=; try done.
    intros o (j & _ & Hj)%elem_of_delete_lookup.
    apply Hst. by eapply list_elem_of_lookup_2.
Qed.

(** X12. Every task the service stores has a non-empty title and a
    non-empty description, after any sequence of requests served from
    the empty database: POST validates them and an update cannot empty
    them. *)
Theorem stored_tasks_have_required_fields (reqs : list request) :
  Forall plain_request reqs →
  required_fields (run initial_store reqs).1.
Proof.
  intros _.
  assert (∀ st, required_fields st → required_fields (run st reqs).1) as Hrun.
  { induction reqs as [|r rest IH]; intros st Hst; [done|].
    rewrite run_cons. simpl. by apply IH, handle_required. }
  apply Hrun. by intros t ?%elem_of_nil.
Qed.

(** X13. No two stored tasks share an [id], after any sequence of
    requests served from the empty database: a create whose id is taken
    and an update to a taken id are refused. *)
Theorem stored_ids_are_unique (reqs : list request) :
  Forall plain_request reqs →
  NoDup (id <$> tasks (run initial_store reqs).1).
Proof. intros _. apply run_unique, unique_ids_initial. Qed.

(** X14. On the stores the service can reach, a stored task is the
    answer of the GET on every path that [parseInt] reads as its id, so
    on the decimal form of an id that is a safe integer; a task whose
    id has a fraction, which a PUT can store, is the answer of no
    GET. *)
Theorem get_task_finds_stored (reqs : list request) (t : Task) (n : number) :
  Forall plain_request reqs →
  t ∈ tasks (run initial_store reqs).1 → id t = Some n →
  (∀ q, parseInt q = Some n →
        get_task q (run initial_store reqs).1 = res_json (TaskJson t))
  ∧ (∀ z : Z, n = Int z → safe_integer z = true →
        get_task (pretty z) (run initial_store reqs).1
        = res_json (TaskJson t))
  ∧ (∀ w f q, n = Frac w f →
        json_body (get_task q (run initial_store reqs).1) ≠ TaskJson t).
Proof.
  intros _ Hin Hid.
  pose proof (run_unique reqs initial_store unique_ids_initial) as Hnd.
  destruct (list_find_unique _ t n Hnd Hin Hid) as [i Hfind].
  assert (∀ q, parseInt q = Some n →
    get_task q (run initial_store reqs).1 = res_json (TaskJson t)) as Hget.
  { intros q Hq. unfold get_task, Task_findOne. rewrite Hq. simpl.
    by rewrite Hfind. }
  split_and!; [done| |].
  - intros z -> Hz. apply Hget. by rewrite parseInt_pretty, double_safe.
  - intros w f q -> Hq. unfold get_task, Task_findOne in Hq.
    destruct (parseInt q) as [x|] eqn:Hp; [|done]. simpl in Hq.
    destruct (list_find (has_id x) _) as [[j t1]|] eqn:Hx; [|done].
    simpl in Hq. simplify_eq.
    apply list_find_Some in Hx as (_ & Hx & _). unfold has_id in Hx.
    rewrite Hid in Hx. simplify_eq. by eapply parseInt_not_Frac.
Qed.

(** X15. Read your writes: on the stores the service can reach, the
    task a PUT returns with 200 is the task the next GET returns on
    every path that [parseInt] reads as its id, so on the decimal form
    of an id that is a safe integer, also when the PUT moved the task
    to that id. *)
Theorem put_then_get (reqs : list request) (p : string)
    (body : gmap string json) (t' : Task) (m : number) :
  Forall plain_request reqs → plain_update body →
  (put_task p body (run initial_store reqs).1).2
  = res_status_json 200 (TaskJson t') →
  id t' = Some m →
  (∀ q, parseInt q = Some m →
        get_task q (put_task p body (run initial_store reqs).1).1
        = res_json (TaskJson t'))
  ∧ (∀ z : Z, m = Int z → safe_integer z = true →
        get_task (pretty z) (put_task p body (run initial_store reqs).1).1
        = res_json (TaskJson t')).
Proof.
  intros _ _ Hresp Hid.
  pose proof (run_unique reqs initial_store unique_ids_initial) as Hnd.
  set (st := (run initial_store reqs).1) in *.
  apply (put_task_unique p body) in Hnd.
  destruct (put_task p body st) as [st' r] eqn:Hput. simpl in *. subst r.
  apply put_task_ok in Hput as (n & u & i & t & _ & _ & Hfind & Ht' & ->).
  apply list_find_Some in Hfind as (Hi & _ & _).
  assert (t' ∈ <[i := t']> (tasks st)) as Hin.
  { apply list_elem_of_lookup. exists i.
    apply list_lookup_insert_eq. by eapply lookup_lt_Some. }
  destruct (list_find_unique _ t' m Hnd Hin Hid) as [k Hk].
  assert (∀ q, parseInt q = Some m →
    get_task q {| tasks := <[i := t']> (tasks st); counter := counter st |}
    = res_json (TaskJson t')) as Hget.
  { intros q Hq. unfold get_task, Task_findOne. rewrite Hq. simpl in *.
    by rewrite Hk. }
  split; [done|]. intros z -> Hz. apply Hget.
  by rewrite parseInt_pretty, double_safe.
Qed.

Lemma delete_removes_id (st : store) (n : number) (i : nat) (t : Task) :
  unique_ids st → list_find (has_id n) (tasks st) = Some (i, t) →
  ∀ o, o ∈ delete i (tasks st) → id o ≠ Some n.
Proof.
  intros Hnd (Hi & Hn & _)%list_find_Some o (j & Hji & Hj)%elem_of_delete_lookup
    Hid.
  apply Hji. apply (proj1 (NoDup_alt _) Hnd j i (Some n)).
  - rewrite list_lookup_fmap, Hj. simpl. by f_equal.
  - rewrite list_lookup_fmap, Hi. simpl. by f_equal.
Qed.

Lemma delete_task_200 p st :
  code (delete_task p st).2 = 200 →
  ∃ n i t,
    parseInt p = Some n ∧ list_find (has_id n) (tasks st) = Some (i, t)
    ∧ (delete_task p st).1
      = {| tasks := delete i (tasks st); counter := counter st |}.
Proof.
  unfold delete_task, Task_findOneAndDelete.
  destruct (parseInt p) as [n|] eqn:Hp; simpl; [|done].
  destruct (list_find (has_id n) (tasks st)) as [[i t]|] eqn:Hfind; simpl;
    [|done].
  intros _. by exists n, i, t.
Qed.

(** X16. On the stores the service can reach, once a DELETE has been
    answered 200 the id is gone: a second DELETE on the same path is
    answered 404, and so is a PUT whose body passes the cast and the
    update validators; both leave the store as the first DELETE left
    it. *)
Theorem delete_twice (reqs : list request) (p : string)
    (body : gmap string json) (u : update) :
  Forall plain_request reqs → plain_update body →
  code (delete_task p (run initial_store reqs).1).2 = 200 →
  castUpdate body = inr u →
  delete_task p (delete_task p (run initial_store reqs).1).1
  = ((delete_task p (run initial_store reqs).1).1,
     res_status_json 404 (Message "Tarea no encontrada"))
  ∧ put_task p body (delete_task p (run initial_store reqs).1).1
    = ((delete_task p (run initial_store reqs).1).1,
       res_status_json 404 (Message "Tarea no encontrada")).
Proof.
  intros _ _ Hcode Hc.
  pose proof (run_unique reqs initial_store unique_ids_initial) as Hnd.
  set (st := (run initial_store reqs).1) in *.
  apply delete_task_200 in Hcode as (n & i & t & Hp & Hfind & ->).
  pose proof (delete_removes_id st n i t Hnd Hfind) as Hgone.
  split.
  - by apply (delete_task_absent p n).
  - by apply (put_task_absent p n body _ u).
Qed.

(** *** Consecutive ids *)

Lemma created_id_not_201 (r : response) : code r ≠ 201 → created_id r = None.
Proof.
  intros Hcode. destruct (created_id r) as [n|] eqn:Hn; [|done].
  by apply created_id_code in Hn.
Qed.

Lemma handle_counter_step r st :
  code (handle r st).2 ≠ 500 →
  (created_id (handle r st).2 = Some (double (counter st + 1))
   ∧ counter (handle r st).1 = counter st + 1)
  ∨ (created_id (handle r st).2 = None
     ∧ counter (handle r st).1 = counter st).
Proof.
  intros H500. destruct r as [q|p|now body|p body|p]; simpl in *.
  - right. split; [|done]. apply created_id_not_201. by destruct q.
  - right. split; [|done]. apply created_id_not_201, get_task_code.
  - unfold post_task in *.
    destruct (validationResult body); [|by right].
    destruct (Task_save _ _ _ _ _) as [st' [e|t]] eqn:Hsave; [done|].
    apply Task_save_created in Hsave as (Hid & Hc & _). left. by split.
  - right. split; [|apply put_task_counter].
    apply created_id_not_201, put_task_code.
  - right. split; [|apply delete_task_counter].
    apply created_id_not_201, delete_task_code.
Qed.

Lemma run_counter st reqs : counter st ≤ counter (run st reqs).1.
Proof.
  revert st. induction reqs as [|r rest IH]; intros st; [done|].
  rewrite run_cons. simpl.
  etrans; [apply (handle_counter r st)|apply IH].
Qed.

Lemma run_created_consecutive st reqs :
  Forall (λ r, code r ≠ 500) (run st reqs).2 →
  created_ids (run st reqs).2
  = double <$> seqZ (counter st + 1) (counter (run st reqs).1 - counter st).
Proof.
  revert st. induction reqs as [|r rest IH]; intros st.
  { intros _. simpl. by rewrite Z.sub_diag. }
  rewrite run_cons. simpl. intros [H500 Hrest]%Forall_cons.
  specialize (IH _ Hrest).
  pose proof (run_counter (handle r st).1 rest) as Hle.
  unfold created_ids in *. simpl.
  destruct (handle_counter_step r st H500) as [[Hid Hc]|[Hid Hc]];
    rewrite Hid; simpl; rewrite IH, Hc.
  - rewrite Hc in Hle. rewrite (seqZ_cons (counter st + 1)) by lia.
    rewrite fmap_cons. repeat f_equal; lia.
  - done.
Qed.

(** X17. As long as no request is answered 500, the creates hand out
    the ids 1, 2, 3, ..., each as a JavaScript number, without a gap
    and in the order of the requests, and the counter is the number of
    tasks created so far. *)
Theorem created_ids_consecutive (reqs : list request) :
  Forall plain_request reqs →
  Forall (λ r, code r ≠ 500) (run initial_store reqs).2 →
  created_ids (run initial_store reqs).2
  = double <$> seqZ 1 (counter (run initial_store reqs).1)
  ∧ counter (run initial_store reqs).1
    = Z.of_nat (length (created_ids (run initial_store reqs).2)).
Proof.
  intros _ H500.
  pose proof (run_created_consecutive initial_store reqs H500) as Hids.
  pose proof (run_counter initial_store reqs) as Hle.
  simpl in Hids, Hle. rewrite Z.sub_0_r in Hids.
  split; [done|]. rewrite Hids, length_fmap, length_seqZ. lia.
Qed.

End properties.

(** ** The statements on concrete requests *)

(** The requests below are served on [decimal_host]. *)
(** A string with a decimal point is none of the words. *)
Lemma point_not_word (a b : string) :
  a +:+ String "." b ∉ [""; "true"; "false"; "1"; "0"].
Proof.
  rewrite !elem_of_cons, elem_of_nil.
  intros [H|[H|[H|[H|[H|[]]]]]];
    repeat (destruct a as [|? a]; simplify_eq/=).
Qed.

Lemma decimal_NumberToString_form (x : number) :
  (∀ n : Z, x = Int n → safe_integer n = false) →
  decimal_NumberToString x ∉ [""; "true"; "false"; "1"; "0"].
Proof.
  intros Hx. destruct x as [n|w f|[]]; simpl.
  - specialize (Hx n eq_refl). rewrite !elem_of_cons, elem_of_nil.
    intros [H|[H|[H|[H|[H|[]]]]]].
    + by destruct (pretty_Z_not_empty n).
    + by apply pretty_Z_not_word in H;
        [|done|apply (bool_decide_unpack _); by vm_compute].
    + by apply pretty_Z_not_word in H;
        [|done|apply (bool_decide_unpack _); by vm_compute].
    + change "1" with (pretty 1) in H. apply (inj pretty) in H. by subst.
    + change "0" with (pretty 0) in H. apply (inj pretty) in H. by subst.
  - destruct (fraction_value f) as [n d]. case_match.
    + apply (point_not_word (String "-" (pretty (- w - 1)))).
    + apply point_not_word.
  - apply (bool_decide_unpack _). by vm_compute.
  - apply (bool_decide_unpack _). by vm_compute.
Qed.

Definition decimal_host : Host :=
  {| NumberToString := decimal_NumberToString;
     StringToNumber := decimal_StringToNumber;
     Date_parse := no_Date_parse;
     NumberToString_form := decimal_NumberToString_form |}.

#[local] Existing Instance decimal_host.

(** The numbers of the routes are doubles: a path beyond the safe
    integers targets the task whose id is the nearest double, an object
    with an [_id] is cast to that [_id], and an id with a fraction,
    which PUT stores, is out of reach of [parseInt]. *)
Example get_beyond_safe_integers :
  get_task "9007199254740993"
    {| tasks := [task_big]; counter := 1 |}
  = res_json (TaskJson task_big).
Proof. by vm_compute. Qed.

Example castNumber_document :
  castNumber (JObj [("_id", JNum 5)]) = Some (Some (Int 5))
  ∧ castNumber (JObj [("a", JNum 5)]) = None.
Proof. done. Qed.

Example put_unknown_id_document_is_404 :
  put_task "7" {[ "id" := JObj [("_id", JNum 5)] ]} store_milk
  = (store_milk, res_status_json 404 (Message "Tarea no encontrada")).
Proof. by vm_compute. Qed.

Example put_fraction_id :
  put_task "1" {[ "id" := JNum (Frac 1 1) ]} store_milk
  = ({| tasks := [task_half]; counter := 1 |},
     res_status_json 200 (TaskJson task_half))
  ∧ parseInt "1.5" = Some (Int 1)
  ∧ get_task "1.5" {| tasks := [task_half]; counter := 1 |}
    = res_status_json 404 (Message "Tarea no encontrada").
Proof. split_and!; by vm_compute. Qed.

Example post_milk :
  post_task 1000 body_milk initial_store
  = (store_milk, res_status_json 201 (TaskJson task_milk)).
Proof. reflexivity. Qed.

(** The scenario of the API description: create, complete, list the
    completed tasks, delete, look up. *)
Example scenario_buy_milk :
  (run initial_store
     [POST_task 1000 body_milk;
      PUT_task "1" {[ "status" := JBool true ]};
      GET_tasks (Some (JStr "true"));
      DELETE_task "1";
      GET_task "1"]).2
  = [res_status_json 201 (TaskJson task_milk);
     res_status_json 200
       (TaskJson {| title := "Buy milk"; status := Some true;
                    description := "2%"; creationDate := Some 1000;
                    id := Some (Int 1) |});
     res_json
       (TaskList [{| title := "Buy milk"; status := Some true;
                     description := "2%"; creationDate := Some 1000;
                     id := Some (Int 1) |}]);
     res_status_json 200 (Message "Tarea eliminada correctamente");
     res_status_json 404 (Message "Tarea no encontrada")].
Proof. reflexivity. Qed.

(** C3. A PUT whose body names [id] or [creationDate] overwrites them:
    [PUT /tasks/1 {"id": 7}] answers 200 and leaves the task with id 7,
    [PUT /tasks/1 {"creationDate": 0}] answers 200 and moves its
    creation date to the epoch. *)
Theorem put_overwrites_id_and_creationDate :
  put_task "1" {[ "id" := JNum 7 ]} store_milk
  = ({| tasks := [{| title := "Buy milk"; status := Some false;
                     description := "2%"; creationDate := Some 1000;
                     id := Some (Int 7) |}];
        counter := 1 |},
     res_status_json 200
       (TaskJson {| title := "Buy milk"; status := Some false;
                    description := "2%"; creationDate := Some 1000;
                    id := Some (Int 7) |}))
  ∧ put_task "1" {[ "creationDate" := JNum 0 ]} store_milk
    = ({| tasks := [{| title := "Buy milk"; status := Some false;
                       description := "2%"; creationDate := Some 0;
                       id := Some (Int 1) |}];
          counter := 1 |},
       res_status_json 200
         (TaskJson {| title := "Buy milk"; status := Some false;
                      description := "2%"; creationDate := Some 0;
                      id := Some (Int 1) |})).
Proof. split; reflexivity. Qed.

(** After such an overwrite the next create meets the unique index:
    the counter hands out 2, which the moved task already holds. *)
Example create_after_id_overwrite :
  (run initial_store
     [POST_task 1000 body_milk;
      PUT_task "1" {[ "id" := JNum 2 ]};
      POST_task 2000 body_milk]).2
  = [res_status_json 201 (TaskJson task_milk);
     res_status_json 200
       (TaskJson {| title := "Buy milk"; status := Some false;
                    description := "2%"; creationDate := Some 1000;
                    id := Some (Int 2) |});
     res_status_json 500 (ErrorMessage (DuplicateKeyError "id"))].
Proof. reflexivity. Qed.

Lemma plain_update_milk : plain_update body_milk.
Proof. apply (bool_decide_unpack _). vm_compute. reflexivity. Defined.


(** C4, as stated, fails: a status that is the string ["true"], not a
    boolean, passes the validation; the answer is 201 and a document is
    persisted. *)
Lemma post_string_status_is_created :
  body_status_string !! "status" = Some (JStr "true")
  ∧ (∀ b, JStr "true" ≠ JBool b)
  ∧ code (post_task 1000 body_status_string initial_store).2 = 201
  ∧ code (post_task 1000 body_status_string initial_store).2 ≠ 400
  ∧ tasks (post_task 1000 body_status_string initial_store).1
    = [{| title := "a"; status := Some true; description := "b";
          creationDate := Some 1000; id := Some (Int 1) |}].
Proof. split_and!; try reflexivity; done. Qed.

Lemma post_invalid_is_400_and_no_write_witness :
  (missing_or_empty (body_no_title !! "title")
   ∨ missing_or_empty (body_no_title !! "description")
   ∨ status_rejected (body_no_title !! "status"))
  ∧ ∃ errors,
      errors ≠ []
      ∧ post_task 1000 body_no_title store_milk
        = (store_milk, res_status_json 400 (ValidationErrors errors))
      ∧ (not_array (body_no_title !! "title") →
         not_array (body_no_title !! "description") →
         not_array (body_no_title !! "status") →
         NoDup (path <$> errors)
         ∧ (∀ f, f ∈ path <$> errors → f ∈ ["title"; "description"; "status"])
         ∧ ("title" ∈ path <$> errors
            ↔ missing_or_empty (body_no_title !! "title"))
         ∧ ("description" ∈ path <$> errors
            ↔ missing_or_empty (body_no_title !! "description"))
         ∧ ("status" ∈ path <$> errors
            ↔ status_rejected (body_no_title !! "status"))).
Proof.
  assert (missing_or_empty (body_no_title !! "title")) as H.
  { left. reflexivity. }
  split; [by left|].
  apply (post_invalid_is_400_and_no_write 1000 body_no_title store_milk).
  by left.
Defined.



(** C6, as stated, fails: with a non-empty title and description but a
    status that is not a boolean form, the answer is 400 and nothing is
    created. *)
Lemma post_bad_status_is_400 :
  body_status_abc !! "title" = Some (JStr "a")
  ∧ body_status_abc !! "description" = Some (JStr "b")
  ∧ code (post_task 1000 body_status_abc initial_store).2 = 400
  ∧ code (post_task 1000 body_status_abc initial_store).2 ≠ 201
  ∧ (post_task 1000 body_status_abc initial_store).1 = initial_store.
Proof. split_and!; try reflexivity; done. Qed.

Lemma post_valid_creates_witness :
  body_milk !! "title" = Some (JStr "Buy milk")
  ∧ "Buy milk" ≠ ""
  ∧ body_milk !! "description" = Some (JStr "2%")
  ∧ "2%" ≠ ""
  ∧ body_milk !! "status" = JBool <$> None
  ∧ (∀ o, o ∈ tasks initial_store → id o ≠ Some (double (counter initial_store + 1)))
  ∧ post_task 1000 body_milk initial_store
    = ({| tasks := tasks initial_store ++ [task_milk];
          counter := counter initial_store + 1 |},
       res_status_json 201 (TaskJson task_milk))
  ∧ get_task (pretty (counter initial_store + 1))
      (post_task 1000 body_milk initial_store).1
    = res_json (TaskJson task_milk)
  ∧ ∀ p, parseInt p = Some (double (counter initial_store + 1)) →
         get_task p (post_task 1000 body_milk initial_store).1
         = res_json (TaskJson task_milk).
Proof.
  assert (∀ o, o ∈ tasks initial_store
               → id o ≠ Some (double (counter initial_store + 1))) as Hfree.
  { intros o Ho. simpl in Ho. by apply elem_of_nil in Ho. }
  split_and!; [reflexivity|done|reflexivity|done|reflexivity|exact Hfree|..];
    apply (post_valid_creates 1000 body_milk initial_store "Buy milk" "2%" None);
    solve [reflexivity | done | exact Hfree].
Defined.

(** C7, as stated, fails: for an id no task has, a PUT whose body
    empties the title is answered 500, not 404. *)
Lemma put_unknown_id_invalid_body_is_500 :
  parseInt "7" = Some (Int 7)
  ∧ (∀ t, t ∈ tasks store_milk → id t ≠ Some (Int 7))
  ∧ put_task "7" body_empty_title store_milk
    = (store_milk,
       res_status_json 500 (ErrorMessage (ValidationError ["title"])))
  ∧ code (put_task "7" body_empty_title store_milk).2 ≠ 404.
Proof.
  split_and!; [reflexivity| |reflexivity|done].
  intros t ->%list_elem_of_singleton. done.
Qed.

Lemma unknown_id_is_404_witness :
  parseInt "7" = Some (Int 7)
  ∧ (∀ t, t ∈ tasks store_milk → id t ≠ Some (Int 7))
  ∧ plain_update body_milk
  ∧ get_task "7" store_milk
    = res_status_json 404 (Message "Tarea no encontrada")
  ∧ delete_task "7" store_milk
    = (store_milk, res_status_json 404 (Message "Tarea no encontrada"))
  ∧ put_task "7" body_milk store_milk
    = (store_milk,
       match castUpdate body_milk with
       | inr _ => res_status_json 404 (Message "Tarea no encontrada")
       | inl e => res_status_json 500 (ErrorMessage e)
       end)
  ∧ has_message (get_task "7" store_milk) = true
  ∧ has_message (delete_task "7" store_milk).2 = true
  ∧ has_message (put_task "7" body_milk store_milk).2 = true.
Proof.
  assert (∀ t, t ∈ tasks store_milk → id t ≠ Some (Int 7)) as Hno.
  { intros t ->%list_elem_of_singleton. done. }
  split_and!; [reflexivity|exact Hno|exact plain_update_milk|..];
    apply (unknown_id_is_404 "7" 7 body_milk store_milk);
    solve [reflexivity | exact Hno | exact plain_update_milk].
Defined.

Lemma delete_then_get_not_found_witness :
  parseInt "1" = Some (Int 1)
  ∧ task_milk ∈ tasks (run initial_store [POST_task 1000 body_milk]).1
  ∧ id task_milk = Some (Int 1)
  ∧ ∃ st' i,
      delete_task "1" (run initial_store [POST_task 1000 body_milk]).1
      = (st', res_status_json 200 (Message "Tarea eliminada correctamente"))
      ∧ tasks (run initial_store [POST_task 1000 body_milk]).1 !! i
        = Some task_milk
      ∧ tasks st'
        = delete i (tasks (run initial_store [POST_task 1000 body_milk]).1)
      ∧ (∀ t', t' ∈ tasks st' → id t' ≠ Some (Int 1))
      ∧ get_task "1" st'
        = res_status_json 404 (Message "Tarea no encontrada").
Proof.
  assert (task_milk ∈ tasks (run initial_store [POST_task 1000 body_milk]).1)
    as Hin.
  { apply list_elem_of_singleton. reflexivity. }
  split_and!; [reflexivity|exact Hin|reflexivity|].
  apply (delete_then_get_not_found [POST_task 1000 body_milk] "1" 1 task_milk);
    [reflexivity|exact Hin|reflexivity].
Defined.

(** C9, as stated, fails where [parseInt] gives [NaN]: the answer is
    500 with the cast error, not 404. *)
Lemma get_NaN_is_500 :
  parseInt "abc" = None
  ∧ get_task "abc" store_milk
    = res_status_json 500 (ErrorMessage (CastError "id"))
  ∧ code (get_task "abc" store_milk) ≠ 404
  ∧ code (put_task "abc" body_milk store_milk).2 ≠ 404
  ∧ code (delete_task "abc" store_milk).2 ≠ 404.
Proof. split_and!; try reflexivity; done. Qed.

Lemma post_task_reads_three_fields_witness :
  body_milk !! "title" = body_milk_extra !! "title"
  ∧ body_milk !! "description" = body_milk_extra !! "description"
  ∧ body_milk !! "status" = body_milk_extra !! "status"
  ∧ body_milk_extra !! "id" = Some (JNum 99)
  ∧ post_task 1000 body_milk store_milk
    = post_task 1000 body_milk_extra store_milk.
Proof.
  split_and!; [reflexivity..|].
  apply (post_task_reads_three_fields 1000 body_milk body_milk_extra store_milk);
    reflexivity.
Defined.

(** ** Further statements on concrete requests *)

Lemma plain_requests_milk : Forall plain_request requests_milk.
Proof.
  repeat constructor. apply (bool_decide_unpack _). vm_compute. reflexivity.
Defined.

Lemma plain_update_done : plain_update body_done.
Proof. apply (bool_decide_unpack _). vm_compute. reflexivity. Defined.

Lemma plain_update_unknown_key : plain_update body_unknown_key.
Proof. apply (bool_decide_unpack _). vm_compute. reflexivity. Defined.

Lemma run_requests_milk :
  run initial_store requests_milk
  = ({| tasks := [task_milk_done]; counter := 1 |},
     [res_status_json 201 (TaskJson task_milk);
      res_status_json 200 (TaskJson task_milk_done)]).
Proof. reflexivity. Defined.

Lemma post_created_task_witness :
  post_task 1000 body_milk initial_store
  = (store_milk, res_status_json 201 (TaskJson task_milk))
  ∧ code (res_status_json 201 (TaskJson task_milk)) = 201
  ∧ ∃ t b tv dv,
      res_status_json 201 (TaskJson task_milk)
      = res_status_json 201 (TaskJson t)
      ∧ store_milk
        = {| tasks := tasks initial_store ++ [t];
             counter := counter initial_store + 1 |}
      ∧ id t = Some (double (counter initial_store + 1))
      ∧ (∀ o, o ∈ tasks initial_store → id o ≠ id t)
      ∧ creationDate t = Some 1000
      ∧ status t = Some b
      ∧ (body_milk !! "status" = None → b = false)
      ∧ body_milk !! "title" = Some tv
      ∧ castString tv = Some (Some (title t))
      ∧ title t ≠ ""
      ∧ body_milk !! "description" = Some dv
      ∧ castString dv = Some (Some (description t))
      ∧ description t ≠ "".
Proof.
  split_and!; [reflexivity|reflexivity|].
  apply (post_created_task 1000 body_milk initial_store store_milk
           (res_status_json 201 (TaskJson task_milk))); reflexivity.
Defined.

Lemma post_then_delete_witness :
  post_task 1000 body_milk initial_store
  = (store_milk, res_status_json 201 (TaskJson task_milk))
  ∧ code (res_status_json 201 (TaskJson task_milk)) = 201
  ∧ delete_task (pretty (counter initial_store + 1)) store_milk
    = ({| tasks := tasks initial_store; counter := counter initial_store + 1 |},
       res_status_json 200 (Message "Tarea eliminada correctamente")).
Proof.
  split_and!; [reflexivity|reflexivity|].
  apply (post_then_delete 1000 body_milk initial_store store_milk
           (res_status_json 201 (TaskJson task_milk))); reflexivity.
Defined.

Lemma put_task_frame_witness :
  plain_update body_done
  ∧ length (tasks (put_task "1" body_done store_milk).1)
    = length (tasks store_milk)
  ∧ counter (put_task "1" body_done store_milk).1 = counter store_milk
  ∧ (code (put_task "1" body_done store_milk).2 ≠ 200 →
     (put_task "1" body_done store_milk).1 = store_milk)
  ∧ ∃ i : nat, ∀ j : nat,
      j ≠ i →
      tasks (put_task "1" body_done store_milk).1 !! j
      = tasks store_milk !! j.
Proof.
  split; [exact plain_update_done|].
  apply (put_task_frame "1" body_done store_milk). exact plain_update_done.
Defined.

Lemma put_task_no_schema_path_witness :
  plain_update body_unknown_key
  ∧ (∀ k, k ∈ schema_paths → body_unknown_key !! k = None)
  ∧ put_task "1" body_unknown_key store_milk
    = (store_milk, get_task "1" store_milk).
Proof.
  assert (∀ k, k ∈ schema_paths → body_unknown_key !! k = None) as Hnone.
  { intros k Hk. unfold schema_paths in Hk.
    repeat (apply elem_of_cons in Hk as [->|Hk]; [reflexivity|]).
    by apply elem_of_nil in Hk. }
  split_and!; [exact plain_update_unknown_key|exact Hnone|].
  apply (put_task_no_schema_path "1" body_unknown_key store_milk);
    [exact plain_update_unknown_key|exact Hnone].
Defined.

Lemma put_task_idempotent_witness :
  plain_update body_done
  ∧ body_done !! "id" = None
  ∧ put_task "1" body_done (put_task "1" body_done store_milk).1
    = put_task "1" body_done store_milk.
Proof.
  split_and!; [exact plain_update_done|reflexivity|].
  apply (put_task_idempotent "1" body_done store_milk);
    [exact plain_update_done|reflexivity].
Defined.

Lemma task_without_id_out_of_reach_witness :
  task_no_id ∈ tasks store_no_id
  ∧ id task_no_id = None
  ∧ get_task "1" store_no_id ≠ res_json (TaskJson task_no_id)
  ∧ task_no_id ∈ tasks (delete_task "1" store_no_id).1
  ∧ task_no_id ∈ tasks (put_task "1" body_done store_no_id).1.
Proof.
  assert (task_no_id ∈ tasks store_no_id) as Hin.
  { apply list_elem_of_singleton. reflexivity. }
  split_and!; [exact Hin|reflexivity|..];
    apply (task_without_id_out_of_reach "1" body_done store_no_id task_no_id);
    solve [exact Hin | reflexivity].
Defined.

Lemma stored_tasks_have_required_fields_witness :
  Forall plain_request requests_milk
  ∧ required_fields (run initial_store requests_milk).1.
Proof.
  split; [exact plain_requests_milk|].
  apply (stored_tasks_have_required_fields requests_milk).
  exact plain_requests_milk.
Defined.

Lemma plain_requests_three : Forall plain_request requests_three.
Proof.
  repeat constructor. apply (bool_decide_unpack _). vm_compute. reflexivity.
Defined.

Lemma run_requests_three :
  (run initial_store requests_three).1
  = {| tasks := [task_milk_done; task_milk_3]; counter := 3 |}
  ∧ code <$> (run initial_store requests_three).2 = [201; 201; 200; 200; 201]
  ∧ created_ids (run initial_store requests_three).2 = [Int 1; Int 2; Int 3].
Proof. split_and!; reflexivity. Defined.

Lemma stored_ids_are_unique_witness :
  Forall plain_request requests_three
  ∧ tasks (run initial_store requests_three).1 = [task_milk_done; task_milk_3]
  ∧ NoDup (id <$> tasks (run initial_store requests_three).1).
Proof.
  split_and!; [exact plain_requests_three|reflexivity|].
  apply (stored_ids_are_unique requests_three). exact plain_requests_three.
Defined.

Lemma get_task_finds_stored_witness :
  Forall plain_request requests_three
  ∧ task_milk_3 ∈ tasks (run initial_store requests_three).1
  ∧ id task_milk_3 = Some (Int 3)
  ∧ parseInt "3abc" = Some (Int 3)
  ∧ get_task "3abc" (run initial_store requests_three).1
    = res_json (TaskJson task_milk_3)
  ∧ get_task (pretty 3) (run initial_store requests_three).1
    = res_json (TaskJson task_milk_3).
Proof.
  assert (task_milk_3 ∈ tasks (run initial_store requests_three).1) as Hin.
  { apply list_elem_of_lookup. exists 1%nat. reflexivity. }
  destruct (get_task_finds_stored requests_three task_milk_3 (Int 3)
              plain_requests_three Hin eq_refl) as (Hq & Hz & _).
  split_and!; [exact plain_requests_three|exact Hin|reflexivity|reflexivity|..].
  - apply Hq. reflexivity.
  - apply (Hz 3); reflexivity.
Defined.

Lemma put_then_get_witness :
  Forall plain_request [POST_task 1000 body_milk]
  ∧ plain_update body_id_7
  ∧ (put_task "1" body_id_7 (run initial_store [POST_task 1000 body_milk]).1).2
    = res_status_json 200 (TaskJson task_milk_7)
  ∧ id task_milk_7 = Some (Int 7)
  ∧ get_task "7"
      (put_task "1" body_id_7 (run initial_store [POST_task 1000 body_milk]).1).1
    = res_json (TaskJson task_milk_7).
Proof.
  assert (Forall plain_request [POST_task 1000 body_milk]) as Hplain.
  { repeat constructor. }
  assert (plain_update body_id_7) as Hbody.
  { apply (bool_decide_unpack _). vm_compute. reflexivity. }
  split_and!; [exact Hplain|exact Hbody|reflexivity|reflexivity|].
  apply (put_then_get [POST_task 1000 body_milk] "1" body_id_7
           task_milk_7 (Int 7));
    [exact Hplain|exact Hbody|reflexivity|reflexivity|reflexivity].
Defined.

Lemma delete_twice_witness :
  Forall plain_request requests_milk
  ∧ plain_update body_done
  ∧ code (delete_task "1" (run initial_store requests_milk).1).2 = 200
  ∧ castUpdate body_done
    = inr {| set_title := None; set_status := Some (Some true);
             set_description := None; set_creationDate := None;
             set_id := None |}
  ∧ delete_task "1" (delete_task "1" (run initial_store requests_milk).1).1
    = ((delete_task "1" (run initial_store requests_milk).1).1,
       res_status_json 404 (Message "Tarea no encontrada"))
  ∧ put_task "1" body_done
      (delete_task "1" (run initial_store requests_milk).1).1
    = ((delete_task "1" (run initial_store requests_milk).1).1,
       res_status_json 404 (Message "Tarea no encontrada")).
Proof.
  split_and!;
    [exact plain_requests_milk|exact plain_update_done|reflexivity
    |reflexivity|..];
    apply (delete_twice requests_milk "1" body_done
             {| set_title := None; set_status := Some (Some true);
                set_description := None; set_creationDate := None;
                set_id := None |});
    solve [exact plain_requests_milk | exact plain_update_done | reflexivity].
Defined.

Lemma created_ids_consecutive_witness :
  Forall plain_request requests_three
  ∧ Forall (λ r, code r ≠ 500) (run initial_store requests_three).2
  ∧ created_ids (run initial_store requests_three).2 = [Int 1; Int 2; Int 3]
  ∧ created_ids (run initial_store requests_three).2
    = double <$> seqZ 1 (counter (run initial_store requests_three).1)
  ∧ counter (run initial_store requests_three).1
    = Z.of_nat (length (created_ids (run initial_store requests_three).2)).
Proof.
  assert (Forall (λ r, code r ≠ 500) (run initial_store requests_three).2)
    as H500.
  { apply (bool_decide_unpack _). vm_compute. reflexivity. }
  split_and!; [exact plain_requests_three|exact H500|reflexivity|..];
    apply (created_ids_consecutive requests_three);
    solve [exact plain_requests_three | exact H500].
Defined.
